(** * H-1B visa dashboard: the aggregation core of [app.py]

    The dashboard is a straight-line pandas script.  Every table it shows is
    computed from two inputs: the loaded data frame [df] and the list
    [selected_years] coming from the sidebar.  This development embeds the
    script's aggregation steps as functions of those inputs and proves the
    properties the specification states about them.

    Conventions of the embedding.
    - A data frame of petition records is a [list Row], in row order.
    - A pandas [Series] indexed by a key is an association list, in index
      order.
    - A pivoted frame is a [Frame]: row labels, column labels and the cells,
      row by row.
    - Counts are integers ([Z]); the only arithmetic on them is addition,
      read over the integers.
    - [Year], [Employer Name], [Industry] and the four counts are present in
      every row, as the data model has them; [City] and [State] may be
      missing.
    - A Python exception is a value [Raise e] of [PyResult]. *)

From Stdlib Require Import ZArith String Ascii List Bool Lia.
From Stdlib Require Import Permutation Sorting.Sorted Floats.
Import ListNotations.

Open Scope string_scope.
Open Scope Z_scope.

(** ** Python results *)

Inductive PyError : Type :=
| IndexError   (* position out of bounds *)
| KeyError     (* label not found *)
| ReError.     (* the pattern does not compile: re.error on object strings *)

Inductive PyResult (A : Type) : Type :=
| Ok (a : A)
| Raise (e : PyError).

Arguments Ok {A} a.
Arguments Raise {A} e.

Definition bind {A B : Type} (m : PyResult A) (k : A -> PyResult B) : PyResult B :=
  match m with
  | Ok a => k a
  | Raise e => Raise e
  end.

Notation "x <- m ;; k" := (bind m (fun x => k))
  (at level 61, m at next level, right associativity).

(** ** The fragment of pandas the script uses *)

Module Pandas.

(** [Series.sum()] of an integer column. *)
Definition sum (l : list Z) : Z := fold_right Z.add 0 l.

(** Stable insertion sort; [leb x y] says that [x] may stand before [y]. *)
Section Sorting.
Context {A : Type}.
Variable leb : A -> A -> bool.

Fixpoint insert (x : A) (l : list A) : list A :=
  match l with
  | [] => [x]
  | h :: t => if leb x h then x :: l else h :: insert x t
  end.

Definition sort (l : list A) : list A := fold_right insert [] l.
End Sorting.

(** A [Series] with index type [K] and integer values. *)
Definition Series (K : Type) : Type := list (K * Z).

(** [ge_value a b]: the entry [a] has at least the value of [b]. *)
Definition ge_value {K : Type} (a b : K * Z) : Prop := snd b <= snd a.

(** [Series.sort_values(ascending=False)]: largest value first.  pandas
    leaves the order of equal values to numpy's default sort; here they keep
    their index order. *)
Definition sort_values_desc {K : Type} (s : Series K) : Series K :=
  sort (fun a b => snd b <=? snd a) s.

(** [Series.sort_values(ascending=True)]. *)
Definition sort_values_asc {K : Type} (s : Series K) : Series K :=
  sort (fun a b => snd a <=? snd b) s.

(** [Series.nlargest(n)] with the default [keep='first']: the [n] largest
    values in descending order, the first occurrence winning among equals. *)
Definition nlargest {K : Type} (n : nat) (s : Series K) : Series K :=
  firstn n (sort_values_desc s).

Section GroupBy.
Context {R K : Type}.
Variable eq_dec : forall a b : K, {a = b} + {a <> b}.
Variable leb : K -> K -> bool.

Definition eqb (a b : K) : bool := if eq_dec a b then true else false.

(** The group keys: the distinct values of the key column, sorted. *)
Definition group_keys (key : R -> K) (df : list R) : list K :=
  sort leb (nodup eq_dec (map key df)).

(** [df[df[key] == k]] *)
Definition rows_with (key : R -> K) (k : K) (df : list R) : list R :=
  filter (fun r => eqb (key r) k) df.

(** [df.groupby(key)[val].sum()] *)
Definition groupby_sum (key : R -> K) (val : R -> Z) (df : list R) : Series K :=
  map (fun k => (k, sum (map val (rows_with key k df)))) (group_keys key df).
End GroupBy.

(** [x in index] and [column.isin(values)]. *)
Definition isin {K : Type} (eq_dec : forall a b : K, {a = b} + {a <> b})
    (x : K) (l : list K) : bool :=
  existsb (eqb eq_dec x) l.

(** A frame with integer row labels, string column labels and cells of
    type [V], stored row by row. *)
Record Frame (V : Type) : Type := mkFrame {
  index : list Z;
  columns : list string;
  values : list (list V)
}.

Arguments mkFrame {V} _ _ _.
Arguments index {V} _.
Arguments columns {V} _.
Arguments values {V} _.

(** The frame whose cell at row [y] and column [c] is [cell y c]. *)
Definition tabulate {V : Type} (idx : list Z) (cols : list string)
    (cell : Z -> string -> V) : Frame V :=
  mkFrame idx cols (map (fun y => map (cell y) cols) idx).

(** [frame.fillna(v)]: a missing cell ([None], pandas' NaN) becomes [v]. *)
Definition fillna {V : Type} (v : V) (t : Frame (option V)) : Frame V :=
  mkFrame (index t) (columns t)
          (map (map (fun c => match c with Some x => x | None => v end)) (values t)).

Section Pivot.
Context {R : Type}.

(** The rows of [df] that fall in the cell ([y], [c]). *)
Definition cell_rows (idx : R -> Z) (col : R -> string) (y : Z) (c : string)
    (df : list R) : list R :=
  rows_with string_dec col c (rows_with Z.eq_dec idx y df).

(** [df.pivot_table(values=val, index=idx, columns=col, aggfunc="sum")]:
    one row per distinct [idx], one column per distinct [col], both sorted;
    a cell holds the sum of [val] over its rows and is missing when no row
    falls in it. *)
Definition pivot_table (val : R -> Z) (idx : R -> Z) (col : R -> string)
    (df : list R) : Frame (option Z) :=
  tabulate (group_keys Z.eq_dec Z.leb idx df)
           (group_keys string_dec String.leb col df)
           (fun y c =>
              match cell_rows idx col y c df with
              | [] => None
              | rs => Some (sum (map val rs))
              end).
End Pivot.

(** Position of a label in an index. *)
Fixpoint get_loc {K : Type} (eq_dec : forall a b : K, {a = b} + {a <> b})
    (k : K) (l : list K) : option nat :=
  match l with
  | [] => None
  | h :: t => if eq_dec k h then Some O
              else match get_loc eq_dec k t with
                   | Some i => Some (S i)
                   | None => None
                   end
  end.

(** [frame.index[i]] *)
Definition index_at {V : Type} (t : Frame V) (i : nat) : PyResult Z :=
  match nth_error (index t) i with
  | Some y => Ok y
  | None => Raise IndexError
  end.

(** [frame.loc[y]]: the row labelled [y], as a series over the columns. *)
Definition loc (t : Frame Z) (y : Z) : PyResult (Series string) :=
  match get_loc Z.eq_dec y (index t) with
  | Some i =>
      match nth_error (values t) i with
      | Some row => Ok (combine (columns t) row)
      | None => Raise KeyError
      end
  | None => Raise KeyError
  end.

(** One row re-read along the column labels [names]. *)
Fixpoint take_columns {V : Type} (cols : list string) (row : list V)
    (names : list string) : PyResult (list V) :=
  match names with
  | [] => Ok []
  | c :: rest =>
      match get_loc string_dec c cols with
      | Some i =>
          match nth_error row i with
          | Some v => vs <- take_columns cols row rest ;; Ok (v :: vs)
          | None => Raise KeyError
          end
      | None => Raise KeyError
      end
  end.

Fixpoint take_columns_rows {V : Type} (cols : list string) (rows : list (list V))
    (names : list string) : PyResult (list (list V)) :=
  match rows with
  | [] => Ok []
  | row :: rest =>
      r <- take_columns cols row names ;;
      rs <- take_columns_rows cols rest names ;;
      Ok (r :: rs)
  end.

(** [frame[names]]: the frame with its columns selected and ordered as
    [names]; an unknown label raises [KeyError]. *)
Definition getitem_columns {V : Type} (t : Frame V) (names : list string)
    : PyResult (Frame V) :=
  match forallb (fun c => isin string_dec c (columns t)) names with
  | true =>
      rows <- take_columns_rows (columns t) (values t) names ;;
      Ok (mkFrame (index t) names rows)
  | false => Raise KeyError
  end.

(** [Series.unique()]: the distinct values in order of first appearance. *)
Fixpoint unique {K : Type} (eq_dec : forall a b : K, {a = b} + {a <> b})
    (l : list K) : list K :=
  match l with
  | [] => []
  | x :: t => x :: remove eq_dec x (unique eq_dec t)
  end.

End Pandas.

Import Pandas.

(** ** The data model *)

(** One row of the loaded data frame, with the column names [load_data]
    gives them.  [City] and [State] may be missing in the data set. *)
Record Row : Type := mkRow {
  Year : Z;
  Employer_Name : string;
  City : option string;
  State : option string;
  Industry : string;
  Initial_Approval : Z;
  Initial_Denial : Z;
  Continuing_Approval : Z;
  Continuing_Denial : Z
}.

(** The two columns [load_data] adds. *)
Definition Total_Approvals (r : Row) : Z := Initial_Approval r + Continuing_Approval r.
Definition Total_Denials (r : Row) : Z := Initial_Denial r + Continuing_Denial r.

(** ** Year-over-year change *)

(** A Python number: [calculate_yoy_change] returns the integer [0] on one
    path and a float on the other. *)
Inductive PyNum : Type :=
| PyInt (z : Z)
| PyFloat (f : float).

(** Conversion of an integer to binary64, rounding to nearest even. *)
Definition float_of_Z (z : Z) : float := SF2Prim (binary_normalize prec emax z 0 false).

(** [calculate_yoy_change(current_year, previous_year)]; the arguments are
    integer totals, [/] is true division in binary64. *)
Definition calculate_yoy_change (current_year previous_year : Z) : PyNum :=
  if previous_year =? 0 then PyInt 0
  else PyFloat ((float_of_Z (current_year - previous_year) / float_of_Z previous_year)
                * float_of_Z 100)%float.

(** Python's [==] on numbers. *)
Definition py_eq (a b : PyNum) : bool :=
  match a, b with
  | PyInt x, PyInt y => x =? y
  | PyFloat x, PyFloat y => PrimFloat.eqb x y
  | PyInt x, PyFloat y => PrimFloat.eqb (float_of_Z x) y
  | PyFloat x, PyInt y => PrimFloat.eqb x (float_of_Z y)
  end.

(** ** Yearly totals *)

Definition target_industries : list string :=
  [ "54 - Professional, Scientific, and Technical Services";
    "31-33 - Manufacturing";
    "44-45 - Retail Trade";
    "48-49 - Transportation and Warehousing";
    "21 - Mining, Quarrying, and Oil and Gas Extraction" ].

(** [df[df["Year"].isin(selected_years)]] *)
Definition year_filtered_df (df : list Row) (selected_years : list Z) : list Row :=
  filter (fun r => isin Z.eq_dec (Year r) selected_years) df.

Definition yearly_approvals (year_filtered : list Row) : Series Z :=
  groupby_sum Z.eq_dec Z.leb Year Total_Approvals year_filtered.

Definition yearly_denials (year_filtered : list Row) : Series Z :=
  groupby_sum Z.eq_dec Z.leb Year Total_Denials year_filtered.

(** [series.get(k, default)] *)
Fixpoint series_get {K : Type} (eq_dec : forall a b : K, {a = b} + {a <> b})
    (s : Series K) (k : K) (default : Z) : Z :=
  match s with
  | [] => default
  | (k', v) :: t => if eq_dec k k' then v else series_get eq_dec t k default
  end.

(** The change shown next to [year] in the key-metrics columns. *)
Definition yoy_change (yearly : Series Z) (year : Z) : PyNum :=
  let current := series_get Z.eq_dec yearly year 0 in
  let previous :=
    if isin Z.eq_dec (year - 1) (map fst yearly)
    then series_get Z.eq_dec yearly (year - 1) 0 else 0 in
  calculate_yoy_change current previous.

(** ** Top industries *)

(** [groupby('Industry')['Total_Approvals'].sum().nlargest(n).index]; the
    script takes [n = 10]. *)
Definition top_industries (n : nat) (year_filtered : list Row) : list string :=
  map fst (nlargest n (groupby_sum string_dec String.leb Industry Total_Approvals
                                   year_filtered)).

Definition top_10_industries : list Row -> list string := top_industries 10.

(** The lambda applied to the [Industry] column. *)
Definition Industry_Category (top : list string) (x : string) : string :=
  if isin string_dec x top then x else "Others".

(** The pivot of lines 145-150, before its columns are sorted. *)
Definition industry_pivot (n : nat) (year_filtered : list Row) : Frame Z :=
  fillna 0 (pivot_table Total_Approvals Year
              (fun r => Industry_Category (top_industries n year_filtered) (Industry r))
              year_filtered).

(** Lines 153-155: order the columns by the first year's values, largest
    first. *)
Definition sort_columns_by_first_year (industry_yearly : Frame Z) : PyResult (Frame Z) :=
  first_year <- index_at industry_yearly 0 ;;
  first_row <- loc industry_yearly first_year ;;
  let sorted_columns := map fst (sort_values_desc first_row) in
  getitem_columns industry_yearly sorted_columns.

(** The table under "Industry Approval Numbers by Year". *)
Definition industry_yearly (n : nat) (year_filtered : list Row) : PyResult (Frame Z) :=
  sort_columns_by_first_year (industry_pivot n year_filtered).

(** ** Watch-list industries *)

(** [year_filtered_df[year_filtered_df["Industry"].isin(watchlist)]]; the
    script's watch-list is [target_industries]. *)
Definition supply_chain_df (watchlist : list string) (year_filtered : list Row) : list Row :=
  filter (fun r => isin string_dec (Industry r) watchlist) year_filtered.

Definition industry_approvals (supply_chain : list Row) : Series string :=
  sort_values_asc (groupby_sum string_dec String.leb Industry Total_Approvals supply_chain).

(** The second [industry_yearly] of the script (lines 220-225). *)
Definition industry_yearly_supply_chain (supply_chain : list Row) : Frame Z :=
  fillna 0 (pivot_table Total_Approvals Year Industry supply_chain).

(** [top_companies] of one tab; the script takes [k = 30]. *)
Definition top_companies (k : nat) (industry : string) (supply_chain : list Row)
    : Series string :=
  let industry_companies := rows_with string_dec Industry industry supply_chain in
  nlargest k (groupby_sum string_dec String.leb Employer_Name Total_Approvals
                          industry_companies).

(** ** Raw data filters *)

(** [column.fillna("")] on [State] and [City]. *)
Definition fillna_state_city (r : Row) : Row :=
  mkRow (Year r) (Employer_Name r)
        (Some (match City r with Some s => s | None => "" end))
        (Some (match State r with Some s => s | None => "" end))
        (Industry r) (Initial_Approval r) (Initial_Denial r)
        (Continuing_Approval r) (Continuing_Denial r).

(** [column == s] on a nullable string column: a missing value equals
    nothing. *)
Definition str_eq (o : option string) (s : string) : bool :=
  match o with
  | Some x => (x =? s)%string
  | None => false
  end.

(** [str.contains(pat, case=False, na=False)] reads [pat] as a regular
    expression of Python's [re] module.  The engine is not part of the
    script and is a parameter here: [engine pat] is [None] when [pat] does
    not compile and otherwise the case-insensitive search for [pat]. *)
Definition Regex : Type := string -> option (string -> bool).

Definition str_contains (engine : Regex) (pat : string) (column : Row -> string)
    (df : list Row) : PyResult (list Row) :=
  match engine pat with
  | Some search => Ok (filter (fun r => search (column r)) df)
  | None => Raise ReError
  end.

(** Lines 296-308. *)
Definition filtered_df (engine : Regex) (supply_chain : list Row)
    (selected_state selected_city : string) (selected_industry : list string)
    (search_company : string) : PyResult (list Row) :=
  let filtered := supply_chain in
  let filtered :=
    if negb (selected_state =? "All")%string
    then filter (fun r => str_eq (State r) selected_state) filtered
    else filtered in
  let filtered :=
    if negb (selected_city =? "All")%string
    then filter (fun r => str_eq (City r) selected_city) filtered
    else filtered in
  let filtered :=
    match selected_industry with
    | [] => filtered
    | _ :: _ => filter (fun r => isin string_dec (Industry r) selected_industry) filtered
    end in
  match search_company with
  | EmptyString => Ok filtered
  | String _ _ => str_contains engine search_company Employer_Name filtered
  end.

(** An engine for the examples.  On a pattern without metacharacters the
    search of [re] is a case-insensitive substring test; [literal_engine]
    accepts those patterns and no other. *)
Definition lower_ascii (c : ascii) : ascii :=
  let n := nat_of_ascii c in
  if (Nat.leb 65 n && Nat.leb n 90)%bool then ascii_of_nat (n + 32) else c.

Fixpoint lower (s : string) : string :=
  match s with
  | EmptyString => EmptyString
  | String c t => String (lower_ascii c) (lower t)
  end.

Fixpoint contains_substring (pat s : string) : bool :=
  String.prefix pat s ||
  match s with
  | EmptyString => false
  | String _ t => contains_substring pat t
  end.

Definition is_metachar (c : ascii) : bool :=
  existsb (Ascii.eqb c) (list_ascii_of_string ".^$*+?{}[]\|()").

Definition literal_engine : Regex := fun pat =>
  if existsb is_metachar (list_ascii_of_string pat) then None
  else Some (fun s => contains_substring (lower pat) (lower s)).

(** ** Loading, the sidebar and the widget options *)

(** The [columns=] dictionary of [load_data]. *)
Definition column_renames : list (string * string) :=
  [ ("Fiscal Year", "Year");
    ("Employer (Petitioner) Name", "Employer Name");
    ("Petitioner City", "City");
    ("Petitioner State", "State");
    ("Industry (NAICS) Code", "Industry");
    ("Initial Approval", "Initial_Approval");
    ("Initial Denial", "Initial_Denial");
    ("Continuing Approval", "Continuing_Approval");
    ("Continuing Denial", "Continuing_Denial") ].

Fixpoint lookup_rename (c : string) (d : list (string * string)) : option string :=
  match d with
  | [] => None
  | (old, new) :: rest => if (c =? old)%string then Some new else lookup_rename c rest
  end.

(** [df.rename(columns=...)] on one column label, as line 33 has stripped
    it: a label that is no key of the dictionary is kept. *)
Definition rename_column (c : string) : string :=
  match lookup_rename c column_renames with
  | Some new => new
  | None => c
  end.

Definition rename_columns (cols : list string) : list string := map rename_column cols.

(** Line 74: [sorted(df["Year"].unique())], the options and the default of
    the year selection. *)
Definition years (df : list Row) : list Z := sort Z.leb (unique Z.eq_dec (map Year df)).

(** The text of a filled [State] or [City] cell. *)
Definition cell_text (o : option string) : string :=
  match o with
  | Some s => s
  | None => ""
  end.

(** Lines 269-270 on the whole frame. *)
Definition fill_state_city (supply_chain : list Row) : list Row :=
  map fillna_state_city supply_chain.

(** Lines 286, 290 and 291, on the filled frame. *)
Definition default_industry (supply_chain : list Row) : list string :=
  unique string_dec (map Industry supply_chain).

Definition state_options (supply_chain : list Row) : list string :=
  "All" :: sort String.leb (unique string_dec (map (fun r => cell_text (State r)) supply_chain)).

Definition city_options (supply_chain : list Row) : list string :=
  "All" :: sort String.leb (unique string_dec (map (fun r => cell_text (City r)) supply_chain)).

(** ** Vocabulary of the statements *)

(** The column a row is counted in. *)
Definition category (n : nat) (year_filtered : list Row) (r : Row) : string :=
  Industry_Category (top_industries n year_filtered) (Industry r).

Definition pivot_years (year_filtered : list Row) : list Z :=
  group_keys Z.eq_dec Z.leb Year year_filtered.

Definition pivot_categories (n : nat) (year_filtered : list Row) : list string :=
  group_keys string_dec String.leb (category n year_filtered) year_filtered.

Definition pivot_cell (n : nat) (year_filtered : list Row) (y : Z) (c : string) : Z :=
  sum (map Total_Approvals (cell_rows Year (category n year_filtered) y c year_filtered)).

(** The column order of lines 153-155 when the first year is [y0]. *)
Definition sorted_columns (n : nat) (year_filtered : list Row) (y0 : Z) : list string :=
  map fst (sort_values_desc
             (map (fun c => (c, pivot_cell n year_filtered y0 c))
                  (pivot_categories n year_filtered))).

(** That year's approvals over all industries. *)
Definition year_approvals (year_filtered : list Row) (y : Z) : Z :=
  sum (map Total_Approvals (rows_with Z.eq_dec Year y year_filtered)).

(** The number of distinct [Industry] values. *)
Definition distinct_industries (year_filtered : list Row) : nat :=
  length (nodup string_dec (map Industry year_filtered)).

(** [frame.at[y, c]]: the cell at row label [y] and column label [c]. *)
Definition frame_at {V : Type} (t : Frame V) (y : Z) (c : string) : option V :=
  match get_loc Z.eq_dec y (index t), get_loc string_dec c (columns t) with
  | Some i, Some j =>
      match nth_error (values t) i with
      | Some row => nth_error row j
      | None => None
      end
  | _, _ => None
  end.

(** The approvals of employer [e] within [industry]. *)
Definition employer_total (industry : string) (supply_chain : list Row) (e : string) : Z :=
  sum (map Total_Approvals
           (filter (fun r => (Industry r =? industry)%string
                             && (Employer_Name r =? e)%string) supply_chain)).

(** The employers that have a row in [industry]. *)
Definition employer_of (industry : string) (supply_chain : list Row) (e : string) : Prop :=
  exists r, In r supply_chain /\ Industry r = industry /\ Employer_Name r = e.

(** The approvals of industry [c] in year [y]. *)
Definition year_industry_total (year_filtered : list Row) (y : Z) (c : string) : Z :=
  sum (map Total_Approvals
           (filter (fun r => (Year r =? y) && (Industry r =? c)%string) year_filtered)).

(** The four predicates of [filtered_df] on one row; [search] is the compiled
    search, or the constant [true] when the search box is empty. *)
Definition passes (selected_state selected_city : string)
    (selected_industry : list string) (search : string -> bool) (r : Row) : bool :=
  ((selected_state =? "All")%string || str_eq (State r) selected_state)
  && ((selected_city =? "All")%string || str_eq (City r) selected_city)
  && match selected_industry with
     | [] => true
     | _ :: _ => isin string_dec (Industry r) selected_industry
     end
  && search (Employer_Name r).

(** That year's denials. *)
Definition year_denials (year_filtered : list Row) (y : Z) : Z :=
  sum (map Total_Denials (rows_with Z.eq_dec Year y year_filtered)).

(** The approvals of one industry over all years. *)
Definition industry_total (rows : list Row) (c : string) : Z :=
  sum (map Total_Approvals (rows_with string_dec Industry c rows)).

(** The approvals of year [y] in the industries outside [top]. *)
Definition year_rest_total (top : list string) (year_filtered : list Row) (y : Z) : Z :=
  sum (map Total_Approvals
           (filter (fun r => (Year r =? y) && negb (isin string_dec (Industry r) top))
                   year_filtered)).

(** The cell of a frame, read as 0 where the frame has none. *)
Definition cell_or_zero (t : Frame Z) (y : Z) (c : string) : Z :=
  match frame_at t y c with
  | Some v => v
  | None => 0
  end.

(** A frame whose only industry is itself called "Others". *)
Definition others_named_df : list Row :=
  [mkRow 2021 "Acme" None None "Others" 10 0 5 0].

Definition sample_row (y : Z) (employer industry : string) (approvals : Z) : Row :=
  mkRow y employer None (Some "CA") industry approvals 1 0 0.

Definition sample_df : list Row :=
  [ sample_row 2021 "Acme" "31-33 - Manufacturing" 10;
    sample_row 2020 "Bolt" "44-45 - Retail Trade" 5;
    sample_row 2021 "Zed" "44-45 - Retail Trade" 20;
    sample_row 2020 "Acme" "52 - Finance and Insurance" 7;
    sample_row 2021 "Acme" "52 - Finance and Insurance" 1 ].

(** Eleven industries, one row each. *)
Definition eleven_industries_df : list Row :=
  map (fun p => sample_row 2021 "Acme" (fst p) (snd p))
      [ ("11 - Agriculture", 1); ("21 - Mining", 2); ("22 - Utilities", 3);
        ("23 - Construction", 4); ("31-33 - Manufacturing", 5);
        ("42 - Wholesale Trade", 6); ("44-45 - Retail Trade", 7);
        ("48-49 - Transportation and Warehousing", 8); ("51 - Information", 9);
        ("52 - Finance and Insurance", 10); ("53 - Real Estate", 11) ].

(** * Facts about the pandas fragment *)

Module PandasFacts.

Lemma sum_app (l1 l2 : list Z) : sum (l1 ++ l2) = sum l1 + sum l2.
Proof.
  induction l1 as [|x l1 IH]; simpl; [reflexivity|].
  rewrite IH. lia.
Qed.

Lemma sum_Permutation (l1 l2 : list Z) : Permutation l1 l2 -> sum l1 = sum l2.
Proof.
  induction 1; simpl; lia.
Qed.

Lemma sum_map_zero {A : Type} (l : list A) : sum (map (fun _ => 0) l) = 0.
Proof.
  induction l; simpl; lia.
Qed.

Section SortFacts.
Context {A : Type}.
Variable leb : A -> A -> bool.

Lemma insert_Permutation (x : A) (l : list A) : Permutation (insert leb x l) (x :: l).
Proof.
  induction l as [|h t IH]; simpl.
  - apply Permutation_refl.
  - destruct (leb x h).
    + apply Permutation_refl.
    + eapply perm_trans; [apply perm_skip, IH | apply perm_swap].
Qed.

Lemma sort_Permutation (l : list A) : Permutation (sort leb l) l.
Proof.
  induction l as [|x l IH]; simpl.
  - apply perm_nil.
  - eapply perm_trans; [apply insert_Permutation | apply perm_skip, IH].
Qed.

Lemma sort_In (x : A) (l : list A) : In x (sort leb l) <-> In x l.
Proof.
  split; apply Permutation_in;
    [apply sort_Permutation | apply Permutation_sym, sort_Permutation].
Qed.

Lemma sort_length (l : list A) : length (sort leb l) = length l.
Proof.
  apply Permutation_length, sort_Permutation.
Qed.

Lemma sort_NoDup (l : list A) : NoDup l -> NoDup (sort leb l).
Proof.
  apply Permutation_NoDup, Permutation_sym, sort_Permutation.
Qed.

(** With a total and transitive order the result is sorted. *)
Hypothesis leb_total : forall x y, leb x y = false -> leb y x = true.
Hypothesis leb_trans : forall x y z, leb x y = true -> leb y z = true -> leb x z = true.

Let le (x y : A) : Prop := leb x y = true.

Lemma insert_sorted (x : A) (l : list A) :
  StronglySorted le l -> StronglySorted le (insert leb x l).
Proof.
  induction 1 as [|h t Hs IH Hh]; simpl.
  - constructor; constructor.
  - destruct (leb x h) eqn:E.
    + constructor; [constructor; assumption|].
      constructor; [exact E|].
      eapply Forall_impl; [|exact Hh].
      intros y Hy. eapply leb_trans; eassumption.
    + constructor; [exact IH|].
      apply Forall_forall. intros y Hy.
      apply (Permutation_in _ (insert_Permutation x t)) in Hy.
      destruct Hy as [<-|Hy].
      * apply leb_total, E.
      * rewrite Forall_forall in Hh. apply Hh, Hy.
Qed.

Lemma sort_sorted (l : list A) : StronglySorted le (sort leb l).
Proof.
  induction l as [|x l IH]; simpl.
  - constructor.
  - apply insert_sorted, IH.
Qed.
End SortFacts.

Lemma In_firstn {A : Type} (n : nat) (l : list A) (x : A) :
  In x (firstn n l) -> In x l.
Proof.
  intros H. rewrite <- (firstn_skipn n l). apply in_or_app. left. exact H.
Qed.

Lemma In_skipn {A : Type} (n : nat) (l : list A) (x : A) :
  In x (skipn n l) -> In x l.
Proof.
  intros H. rewrite <- (firstn_skipn n l). apply in_or_app. right. exact H.
Qed.

(** In a sorted list every element of a prefix stands before every element
    of the rest. *)
Lemma sorted_firstn_skipn {A : Type} (R : A -> A -> Prop) (n : nat) (l : list A) :
  StronglySorted R l ->
  forall a b, In a (firstn n l) -> In b (skipn n l) -> R a b.
Proof.
  intros Hs. revert n.
  induction Hs as [|h t Hs IH Hh]; intros n a b Ha Hb.
  - destruct n; simpl in Ha; contradiction.
  - destruct n as [|n]; simpl in Ha, Hb; [contradiction|].
    destruct Ha as [<-|Ha].
    + rewrite Forall_forall in Hh. apply Hh.
      eapply In_skipn. exact Hb.
    + eapply IH; eassumption.
Qed.

Lemma sorted_firstn {A : Type} (R : A -> A -> Prop) (n : nat) (l : list A) :
  StronglySorted R l -> StronglySorted R (firstn n l).
Proof.
  intros Hs. revert n.
  induction Hs as [|h t Hs IH Hh]; intros [|n]; simpl; try constructor.
  - apply IH.
  - rewrite Forall_forall in *. intros y Hy. apply Hh.
    eapply In_firstn. exact Hy.
Qed.

Section SeriesFacts.
Context {K : Type}.

Lemma sort_values_desc_Permutation (s : Series K) :
  Permutation (sort_values_desc s) s.
Proof.
  apply sort_Permutation.
Qed.

Lemma sort_values_desc_sorted (s : Series K) :
  StronglySorted ge_value (sort_values_desc s).
Proof.
  unfold sort_values_desc.
  assert (H : StronglySorted (fun a b : K * Z => (snd b <=? snd a) = true)
                (sort (fun a b : K * Z => snd b <=? snd a) s)).
  { apply sort_sorted.
    - intros x y E. apply Z.leb_le. apply Z.leb_gt in E. lia.
    - intros x y z E1 E2. apply Z.leb_le. apply Z.leb_le in E1, E2. lia. }
  induction H as [|a l Hs IH Ha]; constructor.
  - exact IH.
  - eapply Forall_impl; [|exact Ha].
    intros b Hb. apply Z.leb_le in Hb. exact Hb.
Qed.

Lemma nlargest_length (n : nat) (s : Series K) :
  length (nlargest n s) = Nat.min n (length s).
Proof.
  unfold nlargest, sort_values_desc.
  rewrite length_firstn, sort_length. reflexivity.
Qed.

Lemma nlargest_all (n : nat) (s : Series K) :
  (length s <= n)%nat -> Permutation (nlargest n s) s.
Proof.
  intros H. unfold nlargest.
  rewrite firstn_all2.
  - apply sort_values_desc_Permutation.
  - unfold sort_values_desc. rewrite sort_length. exact H.
Qed.

Lemma nlargest_In (n : nat) (s : Series K) (x : K * Z) :
  In x (nlargest n s) -> In x s.
Proof.
  intros H. apply In_firstn in H.
  eapply Permutation_in; [apply sort_values_desc_Permutation | exact H].
Qed.

Lemma nlargest_sorted (n : nat) (s : Series K) :
  StronglySorted ge_value (nlargest n s).
Proof.
  apply sorted_firstn, sort_values_desc_sorted.
Qed.
End SeriesFacts.

Section GroupByFacts.
Context {R K : Type}.
Variable eq_dec : forall a b : K, {a = b} + {a <> b}.
Variable leb : K -> K -> bool.

Lemma eqb_true (a b : K) : eqb eq_dec a b = true <-> a = b.
Proof.
  unfold eqb. destruct (eq_dec a b); split; congruence.
Qed.

Lemma eqb_refl (a : K) : eqb eq_dec a a = true.
Proof.
  apply eqb_true. reflexivity.
Qed.

Lemma isin_In (x : K) (l : list K) : isin eq_dec x l = true <-> In x l.
Proof.
  unfold isin. rewrite existsb_exists. split.
  - intros [y [Hy E]]. apply eqb_true in E. subst. exact Hy.
  - intros H. exists x. split; [exact H | apply eqb_refl].
Qed.

Lemma isin_false (x : K) (l : list K) : isin eq_dec x l = false <-> ~ In x l.
Proof.
  rewrite <- isin_In. destruct (isin eq_dec x l); split; congruence.
Qed.

Lemma group_keys_In (key : R -> K) (df : list R) (k : K) :
  In k (group_keys eq_dec leb key df) <-> In k (map key df).
Proof.
  unfold group_keys. rewrite sort_In. apply nodup_In.
Qed.

Lemma group_keys_NoDup (key : R -> K) (df : list R) :
  NoDup (group_keys eq_dec leb key df).
Proof.
  apply sort_NoDup, NoDup_nodup.
Qed.

Lemma group_keys_length (key : R -> K) (df : list R) :
  length (group_keys eq_dec leb key df) = length (nodup eq_dec (map key df)).
Proof.
  apply sort_length.
Qed.

Lemma rows_with_In (key : R -> K) (k : K) (df : list R) (r : R) :
  In r (rows_with eq_dec key k df) <-> In r df /\ key r = k.
Proof.
  unfold rows_with. rewrite filter_In, eqb_true. reflexivity.
Qed.

(** A value counted once, at its own key. *)
Lemma sum_at_key (a : K) (v : Z) (ks : list K) :
  NoDup ks -> In a ks ->
  sum (map (fun k => if eqb eq_dec a k then v else 0) ks) = v.
Proof.
  induction 1 as [|h t Hnot Hnd IH]; intros Hin; [contradiction|].
  simpl. destruct Hin as [->|Hin].
  - rewrite eqb_refl.
    assert (E : sum (map (fun k => if eqb eq_dec a k then v else 0) t) = 0).
    { clear IH Hnd. induction t as [|y t IHt]; simpl; [reflexivity|].
      destruct (eqb eq_dec a y) eqn:Ey.
      - apply eqb_true in Ey. subst. exfalso. apply Hnot. left. reflexivity.
      - rewrite IHt; [reflexivity|]. intros H. apply Hnot. right. exact H. }
    rewrite E. lia.
  - destruct (eqb eq_dec a h) eqn:Eh.
    + apply eqb_true in Eh. subst. contradiction.
    + rewrite IH by exact Hin. lia.
Qed.

Lemma sum_map_add {A : Type} (f g : A -> Z) (l : list A) :
  sum (map (fun x => f x + g x) l) = sum (map f l) + sum (map g l).
Proof.
  induction l as [|x l IH]; simpl; [reflexivity|]. rewrite IH. lia.
Qed.

(** Summing group by group counts every row once, whenever the keys at
    hand are distinct and cover the rows. *)
Lemma sum_groups (key : R -> K) (val : R -> Z) (ks : list K) (df : list R) :
  NoDup ks -> (forall r, In r df -> In (key r) ks) ->
  sum (map (fun k => sum (map val (rows_with eq_dec key k df))) ks)
  = sum (map val df).
Proof.
  intros Hnd. induction df as [|x df IH]; intros Hcov.
  - simpl. apply sum_map_zero.
  - assert (Hx : In (key x) ks) by (apply Hcov; left; reflexivity).
    assert (Hdf : forall r, In r df -> In (key r) ks)
      by (intros r Hr; apply Hcov; right; exact Hr).
    change (sum (map val (x :: df))) with (val x + sum (map val df)).
    rewrite <- (IH Hdf), <- (sum_at_key (key x) (val x) ks Hnd Hx).
    rewrite <- sum_map_add. f_equal. apply map_ext. intros k.
    unfold rows_with. simpl.
    destruct (eqb eq_dec (key x) k); simpl; lia.
Qed.

Lemma groupby_sum_index (key : R -> K) (val : R -> Z) (df : list R) :
  map fst (groupby_sum eq_dec leb key val df) = group_keys eq_dec leb key df.
Proof.
  unfold groupby_sum. rewrite map_map. simpl. apply map_id.
Qed.

Lemma groupby_sum_In (key : R -> K) (val : R -> Z) (df : list R) (k : K) (v : Z) :
  In (k, v) (groupby_sum eq_dec leb key val df) <->
  In k (map key df) /\ v = sum (map val (rows_with eq_dec key k df)).
Proof.
  unfold groupby_sum. rewrite in_map_iff. split.
  - intros [k' [E Hk]]. inversion E; subst.
    split; [apply group_keys_In in Hk; exact Hk | reflexivity].
  - intros [Hk ->]. exists k. split; [reflexivity | apply group_keys_In, Hk].
Qed.

(** The group sums add up to the sum of the whole column. *)
Lemma groupby_sum_total (key : R -> K) (val : R -> Z) (df : list R) :
  sum (map snd (groupby_sum eq_dec leb key val df)) = sum (map val df).
Proof.
  unfold groupby_sum. rewrite map_map. simpl.
  apply sum_groups.
  - apply group_keys_NoDup.
  - intros r Hr. apply group_keys_In, in_map, Hr.
Qed.
End GroupByFacts.

Section FrameFacts.
Context {V : Type}.

Lemma tabulate_ext (idx : list Z) (cols : list string) (f g : Z -> string -> V) :
  (forall y c, f y c = g y c) -> tabulate idx cols f = tabulate idx cols g.
Proof.
  intros H. unfold tabulate. f_equal.
  apply map_ext. intros y. apply map_ext. intros c. apply H.
Qed.

Lemma fillna_tabulate (v : V) (idx : list Z) (cols : list string)
    (cell : Z -> string -> option V) :
  fillna v (tabulate idx cols cell)
  = tabulate idx cols (fun y c => match cell y c with Some x => x | None => v end).
Proof.
  unfold fillna, tabulate. simpl. f_equal.
  rewrite map_map. apply map_ext. intros y. apply map_map.
Qed.

Lemma get_loc_In {K : Type} (eq_dec : forall a b : K, {a = b} + {a <> b})
    (k : K) (l : list K) :
  In k l -> exists i, get_loc eq_dec k l = Some i /\ nth_error l i = Some k.
Proof.
  induction l as [|h t IH]; intros Hin; [contradiction|].
  simpl. destruct (eq_dec k h) as [->|Hne].
  - exists O. split; reflexivity.
  - destruct Hin as [E|Hin]; [congruence|].
    destruct (IH Hin) as [i [E1 E2]].
    exists (S i). rewrite E1. split; [reflexivity | exact E2].
Qed.

Lemma take_columns_map (cols names : list string) (f : string -> V) :
  incl names cols -> take_columns cols (map f cols) names = Ok (map f names).
Proof.
  induction names as [|c rest IH]; intros Hincl; [reflexivity|].
  simpl.
  destruct (get_loc_In string_dec c cols) as [i [E1 E2]].
  { apply Hincl. left. reflexivity. }
  rewrite E1, (map_nth_error f _ _ E2).
  rewrite IH; [reflexivity|].
  intros x Hx. apply Hincl. right. exact Hx.
Qed.

Lemma take_columns_rows_map (idx : list Z) (cols names : list string)
    (cell : Z -> string -> V) :
  incl names cols ->
  take_columns_rows cols (map (fun y => map (cell y) cols) idx) names
  = Ok (map (fun y => map (cell y) names) idx).
Proof.
  intros Hincl. induction idx as [|y idx IH]; [reflexivity|].
  simpl. rewrite take_columns_map by exact Hincl.
  simpl. rewrite IH. reflexivity.
Qed.

(** Selecting known columns of a tabulated frame tabulates the same cells
    along the selected columns. *)
Lemma getitem_columns_tabulate (idx : list Z) (cols names : list string)
    (cell : Z -> string -> V) :
  incl names cols ->
  getitem_columns (tabulate idx cols cell) names = Ok (tabulate idx names cell).
Proof.
  intros Hincl. unfold getitem_columns. simpl.
  assert (E : forallb (fun c => isin string_dec c cols) names = true).
  { apply forallb_forall. intros c Hc. apply isin_In, Hincl, Hc. }
  rewrite E, take_columns_rows_map by exact Hincl.
  reflexivity.
Qed.
End FrameFacts.

Lemma combine_map_r {A B : Type} (f : A -> B) (l : list A) :
  combine l (map f l) = map (fun x => (x, f x)) l.
Proof.
  induction l as [|x l IH]; simpl; [reflexivity|]. rewrite IH. reflexivity.
Qed.

Lemma loc_tabulate_first (y : Z) (idx : list Z) (cols : list string)
    (cell : Z -> string -> Z) :
  loc (tabulate (y :: idx) cols cell) y = Ok (map (fun c => (c, cell y c)) cols).
Proof.
  unfold loc. simpl. destruct (Z.eq_dec y y) as [_|Hne]; [|congruence].
  simpl. rewrite combine_map_r. reflexivity.
Qed.

Section PivotFacts.
Context {R : Type}.
Variables (val : R -> Z) (idx : R -> Z) (col : R -> string).

(** After [fillna(0)] every cell holds the sum over its rows. *)
Lemma pivot_table_fillna (df : list R) :
  fillna 0 (pivot_table val idx col df)
  = tabulate (group_keys Z.eq_dec Z.leb idx df)
             (group_keys string_dec String.leb col df)
             (fun y c => sum (map val (cell_rows idx col y c df))).
Proof.
  unfold pivot_table. rewrite fillna_tabulate.
  apply tabulate_ext. intros y c.
  destruct (cell_rows idx col y c df); reflexivity.
Qed.

(** The cells of one row add up to the total of the rows labelled [y]. *)
Lemma pivot_row_sum (df : list R) (y : Z) (cols : list string) :
  NoDup cols -> (forall r, In r df -> In (col r) cols) ->
  sum (map (fun c => sum (map val (cell_rows idx col y c df))) cols)
  = sum (map val (rows_with Z.eq_dec idx y df)).
Proof.
  intros Hnd Hcov. unfold cell_rows.
  apply sum_groups; [exact Hnd|].
  intros r Hr. apply rows_with_In in Hr. apply Hcov, Hr.
Qed.
End PivotFacts.

End PandasFacts.

Import PandasFacts.

(** * Yearly totals *)

(** The year filter keeps exactly the rows whose year is selected. *)
Lemma year_filtered_df_In (df : list Row) (selected_years : list Z) (r : Row) :
  In r (year_filtered_df df selected_years) <-> In r df /\ In (Year r) selected_years.
Proof.
  unfold year_filtered_df. rewrite filter_In, isin_In. reflexivity.
Qed.

Lemma year_filtered_df_filter (df : list Row) (selected_years : list Z) :
  year_filtered_df df selected_years
  = filter (fun r => if in_dec Z.eq_dec (Year r) selected_years then true else false) df.
Proof.
  unfold year_filtered_df. apply filter_ext. intros r.
  destruct (in_dec Z.eq_dec (Year r) selected_years) as [Hin|Hnot].
  - apply isin_In, Hin.
  - apply isin_false, Hnot.
Qed.

(** Every year of the series carries the sum over the rows of that year, and
    the years of the series are the years that occur in the filtered rows. *)
Lemma yearly_approvals_In (year_filtered : list Row) (y v : Z) :
  In (y, v) (yearly_approvals year_filtered) <->
  In y (map Year year_filtered)
  /\ v = sum (map Total_Approvals (rows_with Z.eq_dec Year y year_filtered)).
Proof.
  apply groupby_sum_In.
Qed.

Lemma yearly_denials_In (year_filtered : list Row) (y v : Z) :
  In (y, v) (yearly_denials year_filtered) <->
  In y (map Year year_filtered)
  /\ v = sum (map Total_Denials (rows_with Z.eq_dec Year y year_filtered)).
Proof.
  apply groupby_sum_In.
Qed.

(** C1: for every data frame and every selection of years, the yearly
    approvals add up to the sum of [Total_Approvals] over exactly the rows
    whose [Year] is selected, and the yearly denials add up to the sum of
    [Total_Denials] over the same rows. *)
Theorem yearly_totals_sum (df : list Row) (selected_years : list Z) :
  let selected :=
    filter (fun r => if in_dec Z.eq_dec (Year r) selected_years then true else false) df in
  sum (map snd (yearly_approvals (year_filtered_df df selected_years)))
  = sum (map Total_Approvals selected)
  /\ sum (map snd (yearly_denials (year_filtered_df df selected_years)))
     = sum (map Total_Denials selected).
Proof.
  intros selected. subst selected.
  rewrite <- year_filtered_df_filter.
  split; apply groupby_sum_total.
Qed.

(** The scenario of the specification: one record of 2021 with approvals
    10 + 5 and denials 1 + 0. *)
Example yearly_totals_scenario :
  let df := [mkRow 2021 "Acme" None None "A" 10 1 5 0] in
  yearly_approvals (year_filtered_df df [2021]) = [(2021, 15)]
  /\ yearly_denials (year_filtered_df df [2021]) = [(2021, 1)].
Proof.
  split; reflexivity.
Qed.

(** * Year-over-year change *)

(** C2: with a previous value of zero the change is the integer [0]; with
    any other previous value it is the binary64 value of
    [((current - previous) / previous) * 100].  In particular the change from
    0 to 100 is [0], from 100 to 150 is [50.0] and from 100 to 50 is
    [-50.0]. *)
Theorem calculate_yoy_change_spec :
  (forall current, calculate_yoy_change current 0 = PyInt 0)
  /\ (forall current previous, previous <> 0 ->
        calculate_yoy_change current previous
        = PyFloat ((float_of_Z (current - previous) / float_of_Z previous)
                   * float_of_Z 100)%float)
  /\ calculate_yoy_change 100 0 = PyInt 0
  /\ calculate_yoy_change 150 100 = PyFloat 50%float
  /\ calculate_yoy_change 50 100 = PyFloat (-50)%float.
Proof.
  split; [|split; [|split; [|split]]].
  - intros current. reflexivity.
  - intros current previous Hne. unfold calculate_yoy_change.
    destruct (previous =? 0) eqn:E; [|reflexivity].
    apply Z.eqb_eq in E. contradiction.
  - reflexivity.
  - vm_compute. reflexivity.
  - vm_compute. reflexivity.
Qed.

Example calculate_yoy_change_py_eq :
  py_eq (calculate_yoy_change 100 0) (PyInt 0) = true
  /\ py_eq (calculate_yoy_change 150 100) (PyFloat 50%float) = true
  /\ py_eq (calculate_yoy_change 50 100) (PyFloat (-50)%float) = true.
Proof.
  repeat split; vm_compute; reflexivity.
Qed.

(** In the key-metrics column a year whose previous year is not in the
    series shows the change [0]; otherwise the change of the two totals. *)
Example yoy_change_sample :
  yearly_approvals sample_df = [(2020, 12); (2021, 31)]
  /\ yoy_change (yearly_approvals sample_df) 2020 = PyInt 0
  /\ yoy_change (yearly_approvals sample_df) 2021 = calculate_yoy_change 31 12.
Proof.
  repeat split.
Qed.

(** * The pivot of the top industries *)

Lemma industry_pivot_tabulate (n : nat) (year_filtered : list Row) :
  industry_pivot n year_filtered
  = tabulate (pivot_years year_filtered) (pivot_categories n year_filtered)
             (pivot_cell n year_filtered).
Proof.
  apply pivot_table_fillna.
Qed.

Lemma sorted_columns_Permutation (n : nat) (year_filtered : list Row) (y0 : Z) :
  Permutation (sorted_columns n year_filtered y0) (pivot_categories n year_filtered).
Proof.
  unfold sorted_columns.
  eapply perm_trans.
  - apply Permutation_map, sort_values_desc_Permutation.
  - rewrite map_map. simpl. rewrite map_id. apply Permutation_refl.
Qed.

Lemma sort_columns_by_first_year_tabulate (y0 : Z) (idx : list Z) (cols : list string)
    (cell : Z -> string -> Z) :
  sort_columns_by_first_year (tabulate (y0 :: idx) cols cell)
  = Ok (tabulate (y0 :: idx)
          (map fst (sort_values_desc (map (fun c => (c, cell y0 c)) cols))) cell).
Proof.
  unfold sort_columns_by_first_year, index_at. simpl.
  rewrite loc_tabulate_first. simpl.
  apply getitem_columns_tabulate.
  intros c Hc.
  eapply Permutation_in in Hc;
    [|apply Permutation_map, sort_values_desc_Permutation].
  rewrite map_map in Hc. simpl in Hc. rewrite map_id in Hc. exact Hc.
Qed.

Lemma sort_columns_by_first_year_empty (cols : list string) (cell : Z -> string -> Z) :
  sort_columns_by_first_year (tabulate [] cols cell) = Raise IndexError.
Proof.
  reflexivity.
Qed.

Lemma pivot_years_nonempty (year_filtered : list Row) :
  year_filtered <> [] -> exists y0 rest, pivot_years year_filtered = y0 :: rest.
Proof.
  intros Hne. destruct (pivot_years year_filtered) as [|y0 rest] eqn:E.
  - destruct year_filtered as [|r df]; [congruence|].
    assert (H : In (Year r) (pivot_years (r :: df))).
    { apply group_keys_In. left. reflexivity. }
    rewrite E in H. contradiction.
  - exists y0, rest. reflexivity.
Qed.

(** On a non-empty frame the table exists: it is the pivot read along the
    sorted columns. *)
Lemma industry_yearly_Ok (n : nat) (year_filtered : list Row) :
  year_filtered <> [] ->
  exists y0 rest,
    pivot_years year_filtered = y0 :: rest
    /\ industry_yearly n year_filtered
       = Ok (tabulate (y0 :: rest) (sorted_columns n year_filtered y0)
                      (pivot_cell n year_filtered)).
Proof.
  intros Hne. destruct (pivot_years_nonempty _ Hne) as [y0 [rest E]].
  exists y0, rest. split; [exact E|].
  unfold industry_yearly. rewrite industry_pivot_tabulate, E.
  apply sort_columns_by_first_year_tabulate.
Qed.

Lemma industry_yearly_empty (n : nat) : industry_yearly n [] = Raise IndexError.
Proof.
  reflexivity.
Qed.

Lemma industry_yearly_inv (n : nat) (year_filtered : list Row) (t : Frame Z) :
  industry_yearly n year_filtered = Ok t ->
  exists y0 rest,
    pivot_years year_filtered = y0 :: rest
    /\ t = tabulate (y0 :: rest) (sorted_columns n year_filtered y0)
                    (pivot_cell n year_filtered).
Proof.
  intros H. destruct year_filtered as [|r df].
  - rewrite industry_yearly_empty in H. discriminate.
  - destruct (industry_yearly_Ok n (r :: df)) as [y0 [rest [E1 E2]]]; [discriminate|].
    exists y0, rest. split; [exact E1|]. congruence.
Qed.

Lemma category_cases (n : nat) (year_filtered : list Row) (r : Row) :
  category n year_filtered r = "Others"
  \/ In (category n year_filtered r) (top_industries n year_filtered).
Proof.
  unfold category, Industry_Category.
  destruct (isin string_dec (Industry r) (top_industries n year_filtered)) eqn:E.
  - right. apply isin_In in E. exact E.
  - left. reflexivity.
Qed.

Lemma top_industries_length (n : nat) (year_filtered : list Row) :
  length (top_industries n year_filtered) = Nat.min n (distinct_industries year_filtered).
Proof.
  unfold top_industries, distinct_industries.
  rewrite length_map, nlargest_length. f_equal.
  unfold groupby_sum. rewrite length_map. apply group_keys_length.
Qed.

Lemma pivot_categories_length (n : nat) (year_filtered : list Row) :
  (length (pivot_categories n year_filtered) <= n + 1)%nat.
Proof.
  assert (H : (length (pivot_categories n year_filtered)
               <= length ("Others" :: top_industries n year_filtered))%nat).
  { apply NoDup_incl_length; [apply group_keys_NoDup|].
    intros c Hc. apply group_keys_In, in_map_iff in Hc.
    destruct Hc as [r [<- _]].
    destruct (category_cases n year_filtered r) as [->|Hin];
      [left; reflexivity | right; exact Hin]. }
  simpl in H. rewrite top_industries_length in H. lia.
Qed.

Lemma pivot_rows_sum (n : nat) (year_filtered : list Row) (cols : list string)
    (idx : list Z) :
  Permutation cols (pivot_categories n year_filtered) ->
  Forall2 (fun y row => sum row = year_approvals year_filtered y)
          idx (values (tabulate idx cols (pivot_cell n year_filtered))).
Proof.
  intros Hperm. simpl. induction idx as [|y idx IH]; simpl; constructor.
  - unfold pivot_cell, year_approvals. apply pivot_row_sum.
    + eapply Permutation_NoDup; [apply Permutation_sym, Hperm|].
      apply group_keys_NoDup.
    + intros r Hr. eapply Permutation_in; [apply Permutation_sym, Hperm|].
      apply group_keys_In, in_map, Hr.
  - exact IH.
Qed.

(** C3: the pivot of the top [n] industries has at most [n + 1] columns, and
    the cells of every year row add up to that year's approvals over all
    industries.  This holds for the pivot as built from any frame, and for
    the table with sorted columns, which exists for every non-empty frame. *)
Theorem industry_yearly_columns_and_row_sums (n : nat) (year_filtered : list Row) :
  ((length (columns (industry_pivot n year_filtered)) <= n + 1)%nat
   /\ index (industry_pivot n year_filtered) = pivot_years year_filtered
   /\ Forall2 (fun y row => sum row = year_approvals year_filtered y)
              (index (industry_pivot n year_filtered))
              (values (industry_pivot n year_filtered)))
  /\ (year_filtered <> [] ->
      exists t, industry_yearly n year_filtered = Ok t
        /\ (length (columns t) <= n + 1)%nat
        /\ index t = pivot_years year_filtered
        /\ Forall2 (fun y row => sum row = year_approvals year_filtered y)
                   (index t) (values t)).
Proof.
  split.
  - rewrite industry_pivot_tabulate. split; [|split].
    + apply pivot_categories_length.
    + reflexivity.
    + apply pivot_rows_sum, Permutation_refl.
  - intros Hne. destruct (industry_yearly_Ok n _ Hne) as [y0 [rest [E1 E2]]].
    eexists. split; [exact E2|]. split; [|split].
    + simpl. rewrite (Permutation_length (sorted_columns_Permutation _ _ _)).
      apply pivot_categories_length.
    + simpl. symmetry. exact E1.
    + apply pivot_rows_sum, sorted_columns_Permutation.
Qed.

Lemma frame_at_tabulate {V : Type} (idx : list Z) (cols : list string)
    (cell : Z -> string -> V) (y : Z) (c : string) :
  In y idx -> In c cols -> frame_at (tabulate idx cols cell) y c = Some (cell y c).
Proof.
  intros Hy Hc. unfold frame_at. simpl.
  destruct (get_loc_In Z.eq_dec y idx Hy) as [i [E1 E2]].
  destruct (get_loc_In string_dec c cols Hc) as [j [E3 E4]].
  rewrite E1, E3.
  rewrite (map_nth_error (fun y => map (cell y) cols) _ _ E2).
  apply map_nth_error, E4.
Qed.

Lemma StronglySorted_map {A B : Type} (f : A -> B) (R : B -> B -> Prop) (l : list A) :
  StronglySorted (fun a b => R (f a) (f b)) l -> StronglySorted R (map f l).
Proof.
  induction 1 as [|a l Hs IH Ha]; simpl; constructor.
  - exact IH.
  - apply Forall_map. exact Ha.
Qed.

(** Reading a series back along its sorted index gives its sorted values. *)
Lemma map_sorted_index (f : string -> Z) (cols : list string) :
  map f (map fst (sort_values_desc (map (fun c => (c, f c)) cols)))
  = map snd (sort_values_desc (map (fun c => (c, f c)) cols)).
Proof.
  rewrite map_map. apply map_ext_in. intros [c v] Hin.
  eapply Permutation_in in Hin; [|apply sort_values_desc_Permutation].
  apply in_map_iff in Hin. destruct Hin as [c' [E _]].
  inversion E; subst. reflexivity.
Qed.

Lemma first_row_descending (n : nat) (year_filtered : list Row) (y0 : Z) :
  StronglySorted (fun a b => b <= a)
    (map (pivot_cell n year_filtered y0) (sorted_columns n year_filtered y0)).
Proof.
  unfold sorted_columns. rewrite map_sorted_index.
  apply StronglySorted_map, sort_values_desc_sorted.
Qed.

Lemma pivot_years_sorted (year_filtered : list Row) :
  StronglySorted Z.le (pivot_years year_filtered).
Proof.
  unfold pivot_years, group_keys.
  assert (H : StronglySorted (fun a b => (a <=? b) = true)
                (sort Z.leb (nodup Z.eq_dec (map Year year_filtered)))).
  { apply sort_sorted.
    - intros x y E. apply Z.leb_le. apply Z.leb_gt in E. lia.
    - intros x y z E1 E2. apply Z.leb_le. apply Z.leb_le in E1, E2. lia. }
  induction H as [|a l Hs IH Ha]; constructor.
  - exact IH.
  - eapply Forall_impl; [|exact Ha]. intros b Hb. apply Z.leb_le, Hb.
Qed.

Lemma rows_read_pivot (n : nat) (year_filtered : list Row) (idx : list Z)
    (cols : list string) :
  incl idx (pivot_years year_filtered) ->
  incl cols (pivot_categories n year_filtered) ->
  Forall2 (fun y row =>
             Forall2 (fun c v => frame_at (industry_pivot n year_filtered) y c = Some v)
                     cols row)
          idx (map (fun y => map (pivot_cell n year_filtered y) cols) idx).
Proof.
  intros Hidx Hcols. induction idx as [|y idx IH]; simpl; constructor.
  - clear IH.
    assert (Hy : In y (pivot_years year_filtered)) by (apply Hidx; left; reflexivity).
    induction cols as [|c cols IHc]; simpl; constructor.
    + rewrite industry_pivot_tabulate. apply frame_at_tabulate; [exact Hy|].
      apply Hcols. left. reflexivity.
    + apply IHc. intros x Hx. apply Hcols. right. exact Hx.
  - apply IH. intros x Hx. apply Hidx. right. exact Hx.
Qed.

(** C8: for every non-empty frame the table exists; its rows are the years
    of the pivot, earliest first, so that its first row is the earliest year
    of the frame; the values of that row stand in descending order; the
    columns are those of the pivot, each once; and every row, the first and
    the later ones, lists the cells of the pivot along this one column
    order. *)
Theorem industry_yearly_column_order (n : nat) (year_filtered : list Row) :
  year_filtered <> [] ->
  exists t first_year later_years first_row later_rows,
    industry_yearly n year_filtered = Ok t
    /\ index t = first_year :: later_years
    /\ Forall (fun y => first_year <= y) later_years
    /\ values t = first_row :: later_rows
    /\ StronglySorted (fun a b => b <= a) first_row
    /\ Permutation (columns t) (columns (industry_pivot n year_filtered))
    /\ Forall2 (fun y row =>
                  Forall2 (fun c v =>
                             frame_at (industry_pivot n year_filtered) y c = Some v)
                          (columns t) row)
               (index t) (values t)
    /\ index t = pivot_years year_filtered
    /\ index t = index (industry_pivot n year_filtered)
    /\ StronglySorted Z.le (index t)
    /\ (exists r, In r year_filtered /\ Year r = first_year)
    /\ (forall r, In r year_filtered -> first_year <= Year r)
    /\ NoDup (columns t).
Proof.
  intros Hne. destruct (industry_yearly_Ok n _ Hne) as [y0 [rest [E1 E2]]].
  pose proof (pivot_years_sorted year_filtered) as Hs.
  assert (Hrest : Forall (fun y => y0 <= y) rest).
  { rewrite E1 in Hs. apply StronglySorted_inv in Hs. apply Hs. }
  exists (tabulate (y0 :: rest) (sorted_columns n year_filtered y0)
                   (pivot_cell n year_filtered)).
  exists y0, rest.
  exists (map (pivot_cell n year_filtered y0) (sorted_columns n year_filtered y0)).
  exists (map (fun y => map (pivot_cell n year_filtered y)
                            (sorted_columns n year_filtered y0)) rest).
  split; [exact E2|]. split; [reflexivity|]. split; [exact Hrest|].
  split; [reflexivity|]. split; [apply first_row_descending|].
  split; [rewrite industry_pivot_tabulate; simpl; apply sorted_columns_Permutation|].
  split.
  { apply rows_read_pivot.
    - rewrite E1. apply incl_refl.
    - intros c Hc. eapply Permutation_in; [apply sorted_columns_Permutation|exact Hc]. }
  split; [simpl; symmetry; exact E1|].
  split; [rewrite industry_pivot_tabulate; simpl; symmetry; exact E1|].
  split; [simpl; rewrite <- E1; exact Hs|].
  split; [|split].
  - assert (Hy : In y0 (pivot_years year_filtered)) by (rewrite E1; left; reflexivity).
    apply group_keys_In, in_map_iff in Hy. destruct Hy as [r [E Hr]].
    exists r. split; assumption.
  - intros r Hr.
    assert (Hy : In (Year r) (pivot_years year_filtered))
      by (apply group_keys_In, in_map, Hr).
    rewrite E1 in Hy. destruct Hy as [<-|Hy]; [lia|].
    rewrite Forall_forall in Hrest. apply Hrest, Hy.
  - simpl. eapply Permutation_NoDup.
    + apply Permutation_sym, sorted_columns_Permutation.
    + apply group_keys_NoDup.
Qed.

(** * When the "Others" column appears *)

(** A list without repetitions that is longer than another has an element
    outside of it. *)
Lemma NoDup_longer_escapes (l l' : list string) :
  NoDup l -> (length l' < length l)%nat -> exists x, In x l /\ ~ In x l'.
Proof.
  intros Hnd Hlen.
  destruct (Forall_Exists_dec (fun x => In x l') (fun x => in_dec string_dec x l') l)
    as [Hall|Hex].
  - exfalso. rewrite Forall_forall in Hall.
    pose proof (NoDup_incl_length Hnd Hall). lia.
  - apply Exists_exists in Hex. exact Hex.
Qed.

Lemma industry_keys_length (year_filtered : list Row) :
  length (group_keys string_dec String.leb Industry year_filtered)
  = distinct_industries year_filtered.
Proof.
  apply group_keys_length.
Qed.

(** With at most [n] distinct industries every industry is among the top
    [n]. *)
Lemma top_industries_all (n : nat) (year_filtered : list Row) (r : Row) :
  (distinct_industries year_filtered <= n)%nat -> In r year_filtered ->
  In (Industry r) (top_industries n year_filtered).
Proof.
  intros Hle Hr. unfold top_industries.
  eapply Permutation_in.
  - apply Permutation_map, Permutation_sym, nlargest_all.
    unfold groupby_sum. rewrite length_map, industry_keys_length. exact Hle.
  - rewrite groupby_sum_index. apply group_keys_In, in_map, Hr.
Qed.

Lemma top_industries_incl (n : nat) (year_filtered : list Row) (x : string) :
  In x (top_industries n year_filtered) -> In x (map Industry year_filtered).
Proof.
  unfold top_industries. intros H. apply in_map_iff in H.
  destruct H as [[k v] [<- H]]. apply nlargest_In, groupby_sum_In in H.
  apply H.
Qed.

(** With more than [n] distinct industries some row falls outside the top
    [n]. *)
Lemma top_industries_miss (n : nat) (year_filtered : list Row) :
  (n < distinct_industries year_filtered)%nat ->
  exists r, In r year_filtered /\ ~ In (Industry r) (top_industries n year_filtered).
Proof.
  intros Hlt.
  destruct (NoDup_longer_escapes
              (group_keys string_dec String.leb Industry year_filtered)
              (top_industries n year_filtered)) as [x [Hx Hnot]].
  - apply group_keys_NoDup.
  - rewrite top_industries_length, industry_keys_length. lia.
  - apply group_keys_In, in_map_iff in Hx. destruct Hx as [r [<- Hr]].
    exists r. split; assumption.
Qed.

(** The columns of the pivot: "Others" is one of them exactly when some row
    is counted under that label. *)
Lemma Others_in_pivot_categories (n : nat) (year_filtered : list Row) :
  In "Others" (pivot_categories n year_filtered) <->
  exists r, In r year_filtered /\ category n year_filtered r = "Others".
Proof.
  unfold pivot_categories. rewrite group_keys_In, in_map_iff.
  split; intros [r [H1 H2]]; exists r; split; assumption.
Qed.

Lemma Others_column_iff (n : nat) (year_filtered : list Row) :
  (forall r, In r year_filtered -> Industry r <> "Others") ->
  (In "Others" (pivot_categories n year_filtered)
   <-> (n < distinct_industries year_filtered)%nat).
Proof.
  intros Hreal. rewrite Others_in_pivot_categories. split.
  - intros [r [Hr Hcat]].
    destruct (Nat.lt_ge_cases n (distinct_industries year_filtered)) as [Hlt|Hge];
      [exact Hlt|].
    exfalso. unfold category, Industry_Category in Hcat.
    destruct (isin string_dec (Industry r) (top_industries n year_filtered)) eqn:E.
    + apply (Hreal r Hr). exact Hcat.
    + apply isin_false in E. apply E. apply top_industries_all; assumption.
  - intros Hlt. destruct (top_industries_miss n _ Hlt) as [r [Hr Hnot]].
    exists r. split; [exact Hr|].
    unfold category, Industry_Category.
    apply (proj2 (isin_false string_dec _ _)) in Hnot. rewrite Hnot. reflexivity.
Qed.

(** C10, as stated, fails on a frame that has an industry called "Others":
    there is one distinct industry, it is in the top 10, and yet the table
    has an "Others" column. *)
Lemma others_column_counterexample :
  (exists t, industry_yearly 10 others_named_df = Ok t /\ In "Others" (columns t))
  /\ ~ (10 < distinct_industries others_named_df)%nat
  /\ Forall (fun r => In (Industry r) (top_10_industries others_named_df))
            others_named_df.
Proof.
  split; [|split].
  - exists (mkFrame [2021] ["Others"] [[15]]).
    split; [reflexivity | left; reflexivity].
  - vm_compute. intros H. apply Nat.succ_le_mono in H. inversion H.
  - constructor; [left; reflexivity | constructor].
Qed.

(** A row whose industry is itself called "Others" is counted under that
    label, in the top [n] or not; otherwise the label appears exactly when
    some industry falls outside the top [n]. *)
Lemma Others_column_exact (n : nat) (year_filtered : list Row) :
  In "Others" (pivot_categories n year_filtered)
  <-> (n < distinct_industries year_filtered)%nat
      \/ In "Others" (map Industry year_filtered).
Proof.
  split.
  - intros Hin.
    destruct (in_dec string_dec "Others" (map Industry year_filtered)) as [Hyes|Hno];
      [right; exact Hyes|].
    left. apply Others_column_iff; [|exact Hin].
    intros r Hr E. apply Hno. rewrite <- E. apply in_map, Hr.
  - rewrite Others_in_pivot_categories. intros [Hlt|Hnamed].
    + destruct (top_industries_miss n _ Hlt) as [r [Hr Hnot]].
      exists r. split; [exact Hr|].
      unfold category, Industry_Category.
      apply (proj2 (isin_false string_dec _ _)) in Hnot. rewrite Hnot. reflexivity.
    + apply in_map_iff in Hnamed. destruct Hnamed as [r [E Hr]].
      exists r. split; [exact Hr|].
      unfold category, Industry_Category. rewrite E.
      destruct (isin string_dec "Others" (top_industries n year_filtered)); reflexivity.
Qed.

Lemma industry_yearly_columns_In (n : nat) (year_filtered : list Row) (c : string) :
  (exists t, industry_yearly n year_filtered = Ok t /\ In c (columns t))
  <-> In c (pivot_categories n year_filtered).
Proof.
  split.
  - intros [t [Ht Hin]].
    destruct (industry_yearly_inv _ _ _ Ht) as [y0 [rest [_ ->]]].
    simpl in Hin.
    eapply Permutation_in; [apply sorted_columns_Permutation | exact Hin].
  - intros Hin.
    assert (Hne : year_filtered <> []).
    { intros ->. simpl in Hin. contradiction. }
    destruct (industry_yearly_Ok n _ Hne) as [y0 [rest [_ E]]].
    eexists. split; [exact E|]. simpl.
    eapply Permutation_in; [apply Permutation_sym, sorted_columns_Permutation|].
    exact Hin.
Qed.

(** C10 (amended): for every frame, the table of the top 10 industries has
    an "Others" column exactly when the frame holds more than 10 distinct
    industries or has a row whose [Industry] is the label "Others" itself.
    So more than 10 distinct industries always give the column, and when no
    row's [Industry] is "Others" the column is there exactly when the frame
    holds more than 10 distinct industries. *)
Theorem others_column_iff_more_than_10 (year_filtered : list Row) :
  ((exists t, industry_yearly 10 year_filtered = Ok t /\ In "Others" (columns t))
   <-> (10 < distinct_industries year_filtered)%nat
       \/ In "Others" (map Industry year_filtered))
  /\ (In "Others" (columns (industry_pivot 10 year_filtered))
      <-> (10 < distinct_industries year_filtered)%nat
          \/ In "Others" (map Industry year_filtered))
  /\ ((10 < distinct_industries year_filtered)%nat ->
      exists t, industry_yearly 10 year_filtered = Ok t /\ In "Others" (columns t))
  /\ (~ In "Others" (map Industry year_filtered) ->
      ((exists t, industry_yearly 10 year_filtered = Ok t /\ In "Others" (columns t))
       <-> (10 < distinct_industries year_filtered)%nat)).
Proof.
  assert (Hexact :
            (exists t, industry_yearly 10 year_filtered = Ok t /\ In "Others" (columns t))
            <-> (10 < distinct_industries year_filtered)%nat
                \/ In "Others" (map Industry year_filtered)).
  { rewrite industry_yearly_columns_In. apply Others_column_exact. }
  split; [exact Hexact|]. split; [|split].
  - rewrite industry_pivot_tabulate. simpl. apply Others_column_exact.
  - intros Hlt. apply Hexact. left. exact Hlt.
  - intros Hnot. rewrite Hexact. tauto.
Qed.

(** * Top companies of an industry *)

Lemma eqb_string (a b : string) : eqb string_dec a b = (a =? b)%string.
Proof.
  unfold eqb. destruct (string_dec a b) as [->|Hne].
  - symmetry. apply String.eqb_refl.
  - symmetry. apply String.eqb_neq, Hne.
Qed.

Lemma filter_filter {A : Type} (f g : A -> bool) (l : list A) :
  filter g (filter f l) = filter (fun x => f x && g x) l.
Proof.
  induction l as [|x l IH]; simpl; [reflexivity|].
  destruct (f x); simpl; [destruct (g x)|]; rewrite IH; reflexivity.
Qed.

Lemma employer_total_rows (industry : string) (supply_chain : list Row) (e : string) :
  sum (map Total_Approvals
           (rows_with string_dec Employer_Name e
              (rows_with string_dec Industry industry supply_chain)))
  = employer_total industry supply_chain e.
Proof.
  unfold employer_total, rows_with. rewrite filter_filter.
  do 2 f_equal. apply filter_ext. intros r. rewrite !eqb_string. reflexivity.
Qed.

Lemma NoDup_firstn {A : Type} (n : nat) (l : list A) : NoDup l -> NoDup (firstn n l).
Proof.
  intros H. rewrite <- (firstn_skipn n l) in H.
  eapply NoDup_app_remove_r. exact H.
Qed.

Lemma In_map_fst {A B : Type} (a : A) (b : B) (l : list (A * B)) :
  In (a, b) l -> In a (map fst l).
Proof.
  intros H. apply in_map_iff. exists (a, b). split; [reflexivity | exact H].
Qed.

(** C5: [top_companies k industry] lists at most [k] pairs of an employer
    of the industry and its summed approvals, never fewer than [k] unless
    the industry has fewer employers, no employer twice, each sum at least
    the next one, and every employer of the industry left out sums to no
    more than any employer listed. *)
Theorem top_companies_spec (k : nat) (industry : string) (supply_chain : list Row) :
  let top := top_companies k industry supply_chain in
  let employers :=
    nodup string_dec
          (map Employer_Name (filter (fun r => (Industry r =? industry)%string)
                                     supply_chain)) in
  (length top <= k)%nat
  /\ length top = Nat.min k (length employers)
  /\ StronglySorted (fun a b => snd b <= snd a) top
  /\ NoDup (map fst top)
  /\ (forall e v, In (e, v) top ->
        employer_of industry supply_chain e
        /\ v = employer_total industry supply_chain e)
  /\ (forall e v e', In (e, v) top ->
        employer_of industry supply_chain e' -> ~ In e' (map fst top) ->
        employer_total industry supply_chain e' <= v).
Proof.
  intros top employers. subst top employers. unfold top_companies.
  set (rows := rows_with string_dec Industry industry supply_chain).
  set (totals := groupby_sum string_dec String.leb Employer_Name Total_Approvals rows).
  assert (Hrows : rows = filter (fun r => (Industry r =? industry)%string) supply_chain).
  { unfold rows, rows_with. apply filter_ext. intros r. apply eqb_string. }
  assert (Hin : forall e v, In (e, v) totals ->
            employer_of industry supply_chain e
            /\ v = employer_total industry supply_chain e).
  { intros e v H. apply groupby_sum_In in H. destruct H as [He ->].
    split; [|apply employer_total_rows].
    apply in_map_iff in He. destruct He as [r [<- Hr]].
    apply rows_with_In in Hr. exists r. tauto. }
  assert (Hlen : length (nlargest k totals) = Nat.min k (length totals))
    by apply nlargest_length.
  split; [rewrite Hlen; apply Nat.le_min_l|].
  split; [|split; [|split; [|split]]].
  - rewrite Hlen. f_equal. unfold totals, groupby_sum.
    rewrite length_map, group_keys_length, Hrows. reflexivity.
  - apply nlargest_sorted.
  - unfold nlargest. rewrite <- firstn_map. apply NoDup_firstn.
    eapply Permutation_NoDup.
    + apply Permutation_map, Permutation_sym, sort_values_desc_Permutation.
    + unfold totals. rewrite groupby_sum_index. apply group_keys_NoDup.
  - intros e v H. apply Hin. eapply nlargest_In. exact H.
  - intros e v e' Hev [r [Hr [Hind Hemp]]] Hout.
    assert (Htot : In (e', employer_total industry supply_chain e') totals).
    { apply groupby_sum_In. split.
      - apply in_map_iff. exists r. split; [exact Hemp|].
        apply rows_with_In. split; assumption.
      - symmetry. apply employer_total_rows. }
    eapply Permutation_in in Htot;
      [|apply Permutation_sym, sort_values_desc_Permutation].
    rewrite <- (firstn_skipn k (sort_values_desc totals)) in Htot.
    apply in_app_or in Htot. destruct Htot as [Htot|Htot].
    + exfalso. apply Hout. eapply In_map_fst. exact Htot.
    + apply (sorted_firstn_skipn ge_value k _ (sort_values_desc_sorted totals)
               (e, v) (e', employer_total industry supply_chain e') Hev Htot).
Qed.

(** * The pivot of the watch-list industries *)

Lemma eqb_Z (a b : Z) : eqb Z.eq_dec a b = (a =? b).
Proof.
  unfold eqb. destruct (Z.eq_dec a b) as [->|Hne].
  - symmetry. apply Z.eqb_refl.
  - symmetry. apply Z.eqb_neq, Hne.
Qed.

Lemma supply_chain_df_In (watchlist : list string) (year_filtered : list Row) (r : Row) :
  In r (supply_chain_df watchlist year_filtered)
  <-> In r year_filtered /\ In (Industry r) watchlist.
Proof.
  unfold supply_chain_df. rewrite filter_In, isin_In. reflexivity.
Qed.

(** Within a watch-list column the cell counts every row of the year and
    the industry: the watch-list filter removes none of them. *)
Lemma watchlist_cell (watchlist : list string) (year_filtered : list Row)
    (y : Z) (c : string) :
  In c watchlist ->
  sum (map Total_Approvals
           (cell_rows Year Industry y c (supply_chain_df watchlist year_filtered)))
  = year_industry_total year_filtered y c.
Proof.
  intros Hc. unfold cell_rows, rows_with, supply_chain_df, year_industry_total.
  rewrite !filter_filter. do 2 f_equal. apply filter_ext_in. intros r _.
  rewrite eqb_Z, eqb_string.
  destruct (Year r =? y); [|apply andb_false_r].
  destruct (Industry r =? c)%string eqn:E; [|apply andb_false_r].
  apply String.eqb_eq in E. subst c.
  apply (proj2 (isin_In string_dec _ _)) in Hc. rewrite Hc. reflexivity.
Qed.

Lemma filter_none {A : Type} (f : A -> bool) (l : list A) :
  (forall x, In x l -> f x = false) -> filter f l = [].
Proof.
  induction l as [|x l IH]; intros H; simpl; [reflexivity|].
  rewrite (H x) by (left; reflexivity).
  apply IH. intros y Hy. apply H. right. exact Hy.
Qed.

(** C6: the watch-list pivot has one row per year and one column per
    industry of the rows whose [Industry] is on the watch-list, no other
    column, and the cell of a year and an industry is the sum of
    [Total_Approvals] over the rows of that year and industry, which is 0
    when there is none.  With the watch-list ["A"] and two rows of 2021 in
    industry "A" whose approvals are 10 and 20 the pivot is the single cell
    30. *)
Theorem watchlist_pivot_spec (watchlist : list string) (year_filtered : list Row) :
  let t := industry_yearly_supply_chain (supply_chain_df watchlist year_filtered) in
  (forall y, In y (index t) <->
             exists r, In r year_filtered /\ In (Industry r) watchlist /\ Year r = y)
  /\ (forall c, In c (columns t) <->
                In c watchlist /\ exists r, In r year_filtered /\ Industry r = c)
  /\ NoDup (index t) /\ NoDup (columns t)
  /\ values t
     = map (fun y => map (year_industry_total year_filtered y) (columns t)) (index t)
  /\ (forall y c, In y (index t) -> In c (columns t) ->
        frame_at t y c = Some (year_industry_total year_filtered y c))
  /\ (forall y c, In y (index t) -> In c (columns t) ->
        (forall r, In r year_filtered -> ~ (Year r = y /\ Industry r = c)) ->
        frame_at t y c = Some 0)
  /\ (forall r1 r2,
        Year r1 = 2021 -> Industry r1 = "A" -> Total_Approvals r1 = 10 ->
        Year r2 = 2021 -> Industry r2 = "A" -> Total_Approvals r2 = 20 ->
        industry_yearly_supply_chain (supply_chain_df ["A"] [r1; r2])
        = mkFrame [2021] ["A"] [[30]]).
Proof.
  intros t. subst t. unfold industry_yearly_supply_chain.
  rewrite pivot_table_fillna.
  set (sc := supply_chain_df watchlist year_filtered).
  assert (Hcols : forall c, In c (group_keys string_dec String.leb Industry sc) ->
                            In c watchlist).
  { intros c Hc. apply group_keys_In, in_map_iff in Hc.
    destruct Hc as [r [<- Hr]]. apply supply_chain_df_In in Hr. apply Hr. }
  assert (Hcell : forall y c, In c (group_keys string_dec String.leb Industry sc) ->
            sum (map Total_Approvals (cell_rows Year Industry y c sc))
            = year_industry_total year_filtered y c).
  { intros y c Hc. apply watchlist_cell, Hcols, Hc. }
  simpl. split; [|split; [|split; [|split; [|split; [|split; [|split]]]]]].
  - intros y. rewrite group_keys_In, in_map_iff. split.
    + intros [r [E Hr]]. apply supply_chain_df_In in Hr. exists r. tauto.
    + intros [r [Hr [Hw E]]]. exists r. split; [exact E|].
      apply supply_chain_df_In. tauto.
  - intros c. rewrite group_keys_In, in_map_iff. split.
    + intros [r [E Hr]]. apply supply_chain_df_In in Hr. subst c.
      split; [tauto|]. exists r. tauto.
    + intros [Hw [r [Hr E]]]. exists r. split; [exact E|].
      apply supply_chain_df_In. subst c. tauto.
  - apply group_keys_NoDup.
  - apply group_keys_NoDup.
  - apply map_ext. intros y. apply map_ext_in. intros c Hc. apply Hcell, Hc.
  - intros y c Hy Hc.
    rewrite (frame_at_tabulate _ _ _ y c Hy Hc). f_equal. apply Hcell, Hc.
  - intros y c Hy Hc Hnone.
    rewrite (frame_at_tabulate _ _ _ y c Hy Hc). f_equal.
    rewrite (Hcell y c Hc). unfold year_industry_total.
    rewrite filter_none; [reflexivity|].
    intros r Hr. apply andb_false_iff.
    destruct (Year r =? y) eqn:E1; [right | left; reflexivity].
    apply String.eqb_neq. intros E2. apply Z.eqb_eq in E1.
    apply (Hnone r Hr). split; assumption.
  - clear. intros [y1 e1 ci1 s1 i1 ia1 id1 ca1 cd1] [y2 e2 ci2 s2 i2 ia2 id2 ca2 cd2].
    unfold Total_Approvals. simpl. intros -> -> H1 -> -> H2.
    unfold industry_yearly_supply_chain, pivot_table, tabulate, fillna, group_keys.
    simpl. unfold sum, Total_Approvals. simpl.
    do 3 f_equal. lia.
Qed.

(** * The raw-data filters *)

Lemma filter_true {A : Type} (l : list A) : filter (fun _ => true) l = l.
Proof.
  induction l as [|x l IH]; simpl; [reflexivity|]. rewrite IH. reflexivity.
Qed.

Lemma filter_unless {A : Type} (skip : bool) (p : A -> bool) (l : list A) :
  (if negb skip then filter p l else l) = filter (fun x => skip || p x) l.
Proof.
  destruct skip; simpl; [symmetry; apply filter_true | reflexivity].
Qed.

Lemma filter_idempotent {A : Type} (p : A -> bool) (l : list A) :
  filter p (filter p l) = filter p l.
Proof.
  rewrite filter_filter. apply filter_ext. intros x. apply andb_diag.
Qed.

(** After lines 269-270 no [State] and no [City] is missing, and filling
    twice is filling once. *)
Lemma fillna_state_city_present (r : Row) :
  State (fillna_state_city r) <> None
  /\ City (fillna_state_city r) <> None
  /\ fillna_state_city (fillna_state_city r) = fillna_state_city r.
Proof.
  split; [discriminate | split; [discriminate | reflexivity]].
Qed.

(** [filtered_df] is one filter by [passes], once the search compiles. *)
Lemma filtered_df_filter (engine : Regex) (supply_chain : list Row)
    (selected_state selected_city : string) (selected_industry : list string)
    (search_company : string) :
  filtered_df engine supply_chain selected_state selected_city selected_industry
              search_company
  = match search_company with
    | EmptyString =>
        Ok (filter (passes selected_state selected_city selected_industry
                           (fun _ => true)) supply_chain)
    | String _ _ =>
        match engine search_company with
        | Some search =>
            Ok (filter (passes selected_state selected_city selected_industry search)
                       supply_chain)
        | None => Raise ReError
        end
    end.
Proof.
  unfold filtered_df, str_contains. rewrite !filter_unless.
  destruct search_company as [|a s], selected_industry as [|i inds];
    try destruct (engine (String a s)) as [search|];
    try reflexivity;
    rewrite ?filter_filter; f_equal; apply filter_ext; intros r; unfold passes;
    rewrite ?andb_true_r, ?andb_assoc; reflexivity.
Qed.

(** C7: filtering a result of [filtered_df] again with the same state, city,
    industries and search text returns that same result. *)
Theorem filtered_df_idempotent (engine : Regex) (supply_chain : list Row)
    (selected_state selected_city : string) (selected_industry : list string)
    (search_company : string) (result : list Row) :
  filtered_df engine supply_chain selected_state selected_city selected_industry
              search_company = Ok result ->
  filtered_df engine result selected_state selected_city selected_industry
              search_company = Ok result.
Proof.
  rewrite !filtered_df_filter.
  destruct search_company as [|a s].
  - intros H. inversion H. rewrite filter_idempotent. reflexivity.
  - destruct (engine (String a s)) as [search|]; [|discriminate].
    intros H. inversion H. rewrite filter_idempotent. reflexivity.
Qed.

(** C9: with an empty industry selection the industry step is skipped: the
    result is that of the state, city and search steps alone, and it is the
    result of a selection that holds every industry of the frame. *)
Theorem filtered_df_empty_industry (engine : Regex) (supply_chain : list Row)
    (selected_state selected_city search_company : string) :
  filtered_df engine supply_chain selected_state selected_city [] search_company
  = (let by_state :=
       if negb (selected_state =? "All")%string
       then filter (fun r => str_eq (State r) selected_state) supply_chain
       else supply_chain in
     let by_city :=
       if negb (selected_city =? "All")%string
       then filter (fun r => str_eq (City r) selected_city) by_state
       else by_state in
     match search_company with
     | EmptyString => Ok by_city
     | String _ _ => str_contains engine search_company Employer_Name by_city
     end)
  /\ (forall every_industry,
        (forall r, In r supply_chain -> In (Industry r) every_industry) ->
        filtered_df engine supply_chain selected_state selected_city every_industry
                    search_company
        = filtered_df engine supply_chain selected_state selected_city []
                      search_company).
Proof.
  split; [reflexivity|].
  intros every_industry Hall. rewrite !filtered_df_filter.
  assert (E : forall search,
            filter (passes selected_state selected_city every_industry search)
                   supply_chain
            = filter (passes selected_state selected_city [] search) supply_chain).
  { intros search. apply filter_ext_in. intros r Hr. unfold passes.
    destruct every_industry as [|i inds]; [reflexivity|].
    rewrite (proj2 (isin_In string_dec _ _) (Hall r Hr)). reflexivity. }
  destruct search_company as [|a s]; [rewrite E; reflexivity|].
  destruct (engine (String a s)); [rewrite E; reflexivity | reflexivity].
Qed.

(** * Totality *)

(** C4 does not hold for the table of the top industries: when no year is
    selected the year filter leaves no row, the pivot has no row, and
    [industry_yearly.index[0]] raises [IndexError]. *)
Theorem industry_yearly_raises_without_years (df : list Row) :
  year_filtered_df df [] = []
  /\ industry_yearly 10 (year_filtered_df df []) = Raise IndexError.
Proof.
  assert (E : year_filtered_df df [] = []).
  { unfold year_filtered_df. apply filter_none. intros r _. reflexivity. }
  rewrite E. split; reflexivity.
Qed.

(** The other aggregations return on the empty frame. *)
Example empty_frame_results :
  yearly_approvals [] = []
  /\ yearly_denials [] = []
  /\ industry_pivot 10 [] = mkFrame [] [] []
  /\ industry_yearly_supply_chain (supply_chain_df target_industries [])
     = mkFrame [] [] []
  /\ top_companies 30 "31-33 - Manufacturing" [] = []
  /\ filtered_df literal_engine [] "All" "All" [] "" = Ok [].
Proof.
  repeat split.
Qed.

(** A search text that is no regular expression makes the search step
    raise, whatever the frame. *)
Lemma filtered_df_raises (engine : Regex) (supply_chain : list Row)
    (selected_state selected_city : string) (selected_industry : list string)
    (search_company : string) :
  search_company <> "" -> engine search_company = None ->
  filtered_df engine supply_chain selected_state selected_city selected_industry
              search_company = Raise ReError.
Proof.
  intros Hne Hnone. rewrite filtered_df_filter.
  destruct search_company; [congruence|]. rewrite Hnone. reflexivity.
Qed.

(** * The theorems at concrete frames *)

Lemma calculate_yoy_change_witness :
  100 <> 0
  /\ calculate_yoy_change 150 100
     = PyFloat ((float_of_Z (150 - 100) / float_of_Z 100) * float_of_Z 100)%float.
Proof.
  assert (H : 100 <> 0) by discriminate.
  split; [exact H|].
  exact (proj1 (proj2 calculate_yoy_change_spec) 150 100 H).
Defined.

Lemma industry_yearly_columns_and_row_sums_witness :
  sample_df <> []
  /\ exists t, industry_yearly 2 sample_df = Ok t
       /\ (length (columns t) <= 2 + 1)%nat
       /\ index t = pivot_years sample_df
       /\ Forall2 (fun y row => sum row = year_approvals sample_df y)
                  (index t) (values t).
Proof.
  assert (H : sample_df <> []) by discriminate.
  split; [exact H|].
  exact (proj2 (industry_yearly_columns_and_row_sums 2 sample_df) H).
Defined.

Lemma industry_yearly_column_order_witness :
  sample_df <> []
  /\ exists t first_year later_years first_row later_rows,
       industry_yearly 2 sample_df = Ok t
       /\ index t = first_year :: later_years
       /\ Forall (fun y => first_year <= y) later_years
       /\ values t = first_row :: later_rows
       /\ StronglySorted (fun a b => b <= a) first_row
       /\ Permutation (columns t) (columns (industry_pivot 2 sample_df))
       /\ Forall2 (fun y row =>
                     Forall2 (fun c v =>
                                frame_at (industry_pivot 2 sample_df) y c = Some v)
                             (columns t) row)
                  (index t) (values t)
       /\ index t = pivot_years sample_df
       /\ index t = index (industry_pivot 2 sample_df)
       /\ StronglySorted Z.le (index t)
       /\ (exists r, In r sample_df /\ Year r = first_year)
       /\ (forall r, In r sample_df -> first_year <= Year r)
       /\ NoDup (columns t).
Proof.
  assert (H : sample_df <> []) by discriminate.
  split; [exact H|].
  exact (industry_yearly_column_order 2 sample_df H).
Defined.

(** The table of the sample frame with the two top industries: the columns
    follow the values 7, 5, 0 of the year 2020. *)
Example industry_yearly_sample :
  industry_yearly 2 sample_df
  = Ok (mkFrame [2020; 2021]
          ["Others"; "44-45 - Retail Trade"; "31-33 - Manufacturing"]
          [[7; 5; 0]; [1; 20; 10]]).
Proof.
  reflexivity.
Qed.

Lemma others_column_iff_more_than_10_witness :
  ~ In "Others" (map Industry eleven_industries_df)
  /\ (10 < distinct_industries eleven_industries_df)%nat
  /\ exists t, industry_yearly 10 eleven_industries_df = Ok t
               /\ In "Others" (columns t).
Proof.
  assert (H : ~ In "Others" (map Industry eleven_industries_df)).
  { simpl. intuition discriminate. }
  assert (L : (10 < distinct_industries eleven_industries_df)%nat).
  { vm_compute. apply le_n. }
  split; [exact H|]. split; [exact L|].
  exact (proj2 (proj2 (proj2 (proj2
                  (others_column_iff_more_than_10 eleven_industries_df))) H) L).
Defined.

Lemma top_companies_witness :
  In ("Zed", 20) (top_companies 1 "44-45 - Retail Trade" sample_df)
  /\ employer_of "44-45 - Retail Trade" sample_df "Bolt"
  /\ ~ In "Bolt" (map fst (top_companies 1 "44-45 - Retail Trade" sample_df))
  /\ employer_total "44-45 - Retail Trade" sample_df "Bolt" <= 20.
Proof.
  assert (H1 : In ("Zed", 20) (top_companies 1 "44-45 - Retail Trade" sample_df)).
  { left. reflexivity. }
  assert (H2 : employer_of "44-45 - Retail Trade" sample_df "Bolt").
  { exists (sample_row 2020 "Bolt" "44-45 - Retail Trade" 5).
    split; [right; left; reflexivity | split; reflexivity]. }
  assert (H3 : ~ In "Bolt" (map fst (top_companies 1 "44-45 - Retail Trade" sample_df))).
  { simpl. intuition discriminate. }
  split; [exact H1|]. split; [exact H2|]. split; [exact H3|].
  exact (proj2 (proj2 (proj2 (proj2 (proj2
           (top_companies_spec 1 "44-45 - Retail Trade" sample_df)))))
           "Zed" 20 "Bolt" H1 H2 H3).
Defined.

Lemma watchlist_pivot_witness :
  industry_yearly_supply_chain
    (supply_chain_df ["A"] [sample_row 2021 "Acme" "A" 10; sample_row 2021 "Bolt" "A" 20])
  = mkFrame [2021] ["A"] [[30]].
Proof.
  exact (proj2 (proj2 (proj2 (proj2 (proj2 (proj2 (proj2
           (watchlist_pivot_spec ["A"]
              [sample_row 2021 "Acme" "A" 10; sample_row 2021 "Bolt" "A" 20])))))))
           (sample_row 2021 "Acme" "A" 10) (sample_row 2021 "Bolt" "A" 20)
           eq_refl eq_refl eq_refl eq_refl eq_refl eq_refl).
Defined.

Lemma filtered_df_idempotent_witness :
  filtered_df literal_engine sample_df "CA" "All" ["52 - Finance and Insurance"] "aC"
  = Ok [ sample_row 2020 "Acme" "52 - Finance and Insurance" 7;
         sample_row 2021 "Acme" "52 - Finance and Insurance" 1 ]
  /\ filtered_df literal_engine
       [ sample_row 2020 "Acme" "52 - Finance and Insurance" 7;
         sample_row 2021 "Acme" "52 - Finance and Insurance" 1 ]
       "CA" "All" ["52 - Finance and Insurance"] "aC"
     = Ok [ sample_row 2020 "Acme" "52 - Finance and Insurance" 7;
            sample_row 2021 "Acme" "52 - Finance and Insurance" 1 ].
Proof.
  assert (H : filtered_df literal_engine sample_df "CA" "All"
                ["52 - Finance and Insurance"] "aC"
              = Ok [ sample_row 2020 "Acme" "52 - Finance and Insurance" 7;
                     sample_row 2021 "Acme" "52 - Finance and Insurance" 1 ])
    by reflexivity.
  split; [exact H|].
  exact (filtered_df_idempotent literal_engine sample_df "CA" "All"
           ["52 - Finance and Insurance"] "aC" _ H).
Defined.

Lemma filtered_df_empty_industry_witness :
  (forall r, In r sample_df ->
     In (Industry r)
        ["31-33 - Manufacturing"; "44-45 - Retail Trade"; "52 - Finance and Insurance"])
  /\ filtered_df literal_engine sample_df "CA" "All"
       ["31-33 - Manufacturing"; "44-45 - Retail Trade"; "52 - Finance and Insurance"] "e"
     = filtered_df literal_engine sample_df "CA" "All" [] "e".
Proof.
  assert (H : forall r, In r sample_df ->
     In (Industry r)
        ["31-33 - Manufacturing"; "44-45 - Retail Trade"; "52 - Finance and Insurance"]).
  { intros r Hr. simpl in Hr.
    repeat (destruct Hr as [<-|Hr]; [simpl; tauto|]). contradiction. }
  split; [exact H|].
  exact (proj2 (filtered_df_empty_industry literal_engine sample_df "CA" "All" "e") _ H).
Defined.


(** * More of the script *)

(** ** Lookups in the yearly series *)

Lemma series_get_map {K : Type} (eq_dec : forall a b : K, {a = b} + {a <> b})
    (f : K -> Z) (ks : list K) (k : K) (default : Z) :
  series_get eq_dec (map (fun k => (k, f k)) ks) k default
  = if in_dec eq_dec k ks then f k else default.
Proof.
  induction ks as [|h t IH]; simpl; [reflexivity|].
  destruct (eq_dec k h) as [E|Hne].
  - destruct (eq_dec h k) as [E'|Hne]; [f_equal; congruence | congruence].
  - rewrite IH. destruct (eq_dec h k) as [E|Hne']; [congruence|].
    destruct (in_dec eq_dec k t); reflexivity.
Qed.

Lemma rows_with_absent {R K : Type} (eq_dec : forall a b : K, {a = b} + {a <> b})
    (key : R -> K) (k : K) (df : list R) :
  ~ In k (map key df) -> rows_with eq_dec key k df = [].
Proof.
  intros Hnot. apply filter_none. intros r Hr.
  destruct (eqb eq_dec (key r) k) eqn:E; [|reflexivity].
  apply eqb_true in E. exfalso. apply Hnot. rewrite <- E. apply in_map, Hr.
Qed.

(** [groupby(key)[val].sum().get(k, 0)] is the sum over the rows with key
    [k], whether or not there is such a row. *)
Lemma series_get_groupby_sum {R K : Type} (eq_dec : forall a b : K, {a = b} + {a <> b})
    (leb : K -> K -> bool) (key : R -> K) (val : R -> Z) (df : list R) (k : K) :
  series_get eq_dec (groupby_sum eq_dec leb key val df) k 0
  = sum (map val (rows_with eq_dec key k df)).
Proof.
  unfold groupby_sum. rewrite series_get_map.
  destruct (in_dec eq_dec k (group_keys eq_dec leb key df)) as [_|Hnot];
    [reflexivity|].
  rewrite rows_with_absent; [reflexivity|].
  intros H. apply Hnot, group_keys_In, H.
Qed.

(** X1: looking a year up in the yearly approvals or denials with the
    default 0 gives the total of that year's rows; for a year without rows
    this is 0. *)
Theorem yearly_get_total (year_filtered : list Row) (y : Z) :
  series_get Z.eq_dec (yearly_approvals year_filtered) y 0
  = year_approvals year_filtered y
  /\ series_get Z.eq_dec (yearly_denials year_filtered) y 0
     = year_denials year_filtered y.
Proof.
  split; apply series_get_groupby_sum.
Qed.

Lemma series_get_absent {K : Type} (eq_dec : forall a b : K, {a = b} + {a <> b})
    (s : Series K) (k : K) (default : Z) :
  ~ In k (map fst s) -> series_get eq_dec s k default = default.
Proof.
  induction s as [|[k' v] t IH]; simpl; intros Hnot; [reflexivity|].
  destruct (eq_dec k k') as [->|Hne]; [exfalso; apply Hnot; left; reflexivity|].
  apply IH. intros H. apply Hnot. right. exact H.
Qed.

(** The test [year-1 in yearly.index] changes nothing: a missing year reads
    as 0 anyway. *)
Lemma yoy_change_get (yearly : Series Z) (year : Z) :
  yoy_change yearly year
  = calculate_yoy_change (series_get Z.eq_dec yearly year 0)
                         (series_get Z.eq_dec yearly (year - 1) 0).
Proof.
  unfold yoy_change.
  destruct (isin Z.eq_dec (year - 1) (map fst yearly)) eqn:E; [reflexivity|].
  apply isin_false in E. rewrite (series_get_absent _ _ _ _ E). reflexivity.
Qed.

(** X2: the change shown next to a year is [calculate_yoy_change] of that
    year's total and the previous year's total, for approvals and for
    denials. *)
Theorem yoy_change_of_totals (year_filtered : list Row) (year : Z) :
  yoy_change (yearly_approvals year_filtered) year
  = calculate_yoy_change (year_approvals year_filtered year)
                         (year_approvals year_filtered (year - 1))
  /\ yoy_change (yearly_denials year_filtered) year
     = calculate_yoy_change (year_denials year_filtered year)
                            (year_denials year_filtered (year - 1)).
Proof.
  rewrite !yoy_change_get. unfold yearly_approvals, yearly_denials.
  rewrite !series_get_groupby_sum. split; reflexivity.
Qed.

Lemma year_filtered_rows_absent (df : list Row) (selected_years : list Z) (y : Z) :
  ~ In y selected_years ->
  rows_with Z.eq_dec Year y (year_filtered_df df selected_years) = [].
Proof.
  intros Hnot. apply rows_with_absent. intros H.
  apply in_map_iff in H. destruct H as [r [<- Hr]].
  apply year_filtered_df_In in Hr. apply Hnot, Hr.
Qed.

(** X3: when the previous year is not among the selected years, the change
    shown for a year is the integer 0, whatever the data of the previous
    year. *)
Theorem yoy_change_previous_unselected (df : list Row) (selected_years : list Z)
    (year : Z) :
  ~ In (year - 1) selected_years ->
  yoy_change (yearly_approvals (year_filtered_df df selected_years)) year = PyInt 0
  /\ yoy_change (yearly_denials (year_filtered_df df selected_years)) year = PyInt 0.
Proof.
  intros Hnot. rewrite !yoy_change_get. unfold yearly_approvals, yearly_denials.
  rewrite !series_get_groupby_sum.
  rewrite (year_filtered_rows_absent df selected_years (year - 1) Hnot).
  split; reflexivity.
Qed.

Lemma yoy_change_previous_unselected_witness :
  ~ In (2021 - 1) [2021]
  /\ yoy_change (yearly_approvals (year_filtered_df sample_df [2021])) 2021 = PyInt 0
  /\ yoy_change (yearly_denials (year_filtered_df sample_df [2021])) 2021 = PyInt 0.
Proof.
  assert (H : ~ In (2021 - 1) [2021]).
  { simpl. intros [E|[]]. discriminate. }
  split; [exact H|].
  exact (yoy_change_previous_unselected sample_df [2021] 2021 H).
Defined.

(** ** The year selection *)

Lemma unique_In {K : Type} (eq_dec : forall a b : K, {a = b} + {a <> b})
    (l : list K) (x : K) :
  In x (unique eq_dec l) <-> In x l.
Proof.
  induction l as [|h t IH]; simpl; [reflexivity|].
  split.
  - intros [E|H]; [left; exact E|].
    apply in_remove in H. right. apply IH, H.
  - intros [E|H]; [left; exact E|].
    destruct (eq_dec h x) as [E|Hne]; [left; exact E|].
    right. apply in_in_remove; [congruence | apply IH, H].
Qed.

Lemma unique_NoDup {K : Type} (eq_dec : forall a b : K, {a = b} + {a <> b})
    (l : list K) :
  NoDup (unique eq_dec l).
Proof.
  induction l as [|h t IH]; simpl; constructor.
  - apply remove_In.
  - clear -IH. induction IH as [|x l Hx Hnd IHl]; simpl; [constructor|].
    destruct (eq_dec h x); [exact IHl|].
    constructor; [|exact IHl].
    intros H. apply in_remove in H. apply Hx, H.
Qed.

Lemma years_In (df : list Row) (y : Z) : In y (years df) <-> In y (map Year df).
Proof.
  unfold years. rewrite sort_In. apply unique_In.
Qed.

Lemma sorted_NoDup_strict (l : list Z) :
  StronglySorted Z.le l -> NoDup l -> StronglySorted Z.lt l.
Proof.
  induction 1 as [|a l Hs IH Ha]; intros Hnd; constructor.
  - apply IH. inversion Hnd; assumption.
  - inversion Hnd as [|? ? Hnot _]; subst.
    rewrite Forall_forall in *. intros x Hx.
    specialize (Ha x Hx).
    assert (a <> x) by (intros ->; contradiction). lia.
Qed.

Lemma sort_Z_sorted (l : list Z) : StronglySorted Z.le (sort Z.leb l).
Proof.
  assert (H : StronglySorted (fun a b => (a <=? b) = true) (sort Z.leb l)).
  { apply sort_sorted.
    - intros x y E. apply Z.leb_le. apply Z.leb_gt in E. lia.
    - intros x y z E1 E2. apply Z.leb_le. apply Z.leb_le in E1, E2. lia. }
  induction H as [|a t Hs IH Ha]; constructor.
  - exact IH.
  - eapply Forall_impl; [|exact Ha]. intros b Hb. apply Z.leb_le, Hb.
Qed.

(** X4: the year options of the sidebar are the years of the frame, each
    once, in ascending order; and with the default selection, all of them,
    the year filter keeps the whole frame. *)
Theorem years_default_selection (df : list Row) :
  (forall y, In y (years df) <-> exists r, In r df /\ Year r = y)
  /\ StronglySorted Z.lt (years df)
  /\ year_filtered_df df (years df) = df.
Proof.
  split; [|split].
  - intros y. rewrite years_In, in_map_iff. split.
    + intros [r [E Hr]]. exists r. tauto.
    + intros [r [Hr E]]. exists r. tauto.
  - apply sorted_NoDup_strict.
    + apply sort_Z_sorted.
    + apply sort_NoDup, unique_NoDup.
  - unfold year_filtered_df. rewrite <- (filter_true df) at 2.
    apply filter_ext_in. intros r Hr.
    apply isin_In, years_In, in_map, Hr.
Qed.

(** X5: the two bar series of the trend chart have the same years, in
    strictly ascending order, and these are the selected years that have a
    row. *)
Theorem yearly_series_index (df : list Row) (selected_years : list Z) :
  let year_filtered := year_filtered_df df selected_years in
  map fst (yearly_approvals year_filtered) = map fst (yearly_denials year_filtered)
  /\ StronglySorted Z.lt (map fst (yearly_approvals year_filtered))
  /\ (forall y, In y (map fst (yearly_approvals year_filtered)) <->
                In y selected_years /\ exists r, In r df /\ Year r = y).
Proof.
  intros year_filtered. unfold yearly_approvals, yearly_denials.
  rewrite !groupby_sum_index. split; [reflexivity|]. split.
  - apply sorted_NoDup_strict; [apply sort_Z_sorted | apply group_keys_NoDup].
  - intros y. rewrite group_keys_In, in_map_iff. split.
    + intros [r [E Hr]]. apply year_filtered_df_In in Hr. subst y.
      split; [tauto|]. exists r. tauto.
    + intros [Hy [r [Hr E]]]. exists r. split; [exact E|].
      apply year_filtered_df_In. subst y. tauto.
Qed.

(** ** The top industries and the cells of their pivot *)

(** Among the entries of a series with distinct keys, one that [nlargest]
    leaves out has no more than any one it keeps. *)
Lemma nlargest_dominates {K : Type} (n : nat) (s : Series K) (k k' : K) (v v' : Z) :
  In (k, v) (nlargest n s) -> In (k', v') s -> ~ In k' (map fst (nlargest n s)) ->
  v' <= v.
Proof.
  intros Hin Hs Hout.
  eapply Permutation_in in Hs; [|apply Permutation_sym, sort_values_desc_Permutation].
  rewrite <- (firstn_skipn n (sort_values_desc s)) in Hs.
  apply in_app_or in Hs. destruct Hs as [Hs|Hs].
  - exfalso. apply Hout. eapply In_map_fst. exact Hs.
  - apply (sorted_firstn_skipn ge_value n _ (sort_values_desc_sorted s)
             (k, v) (k', v') Hin Hs).
Qed.

Lemma nlargest_keys_NoDup {K : Type} (n : nat) (s : Series K) :
  NoDup (map fst s) -> NoDup (map fst (nlargest n s)).
Proof.
  intros H. unfold nlargest. rewrite <- firstn_map. apply NoDup_firstn.
  eapply Permutation_NoDup; [|exact H].
  apply Permutation_map, Permutation_sym, sort_values_desc_Permutation.
Qed.

(** X6: the top [n] industries are [min n d] distinct industries of the
    frame, [d] being the number of its industries, and an industry left out
    has no more approvals than any industry taken. *)
Theorem top_industries_spec (n : nat) (year_filtered : list Row) :
  length (top_industries n year_filtered)
  = Nat.min n (distinct_industries year_filtered)
  /\ NoDup (top_industries n year_filtered)
  /\ (forall c, In c (top_industries n year_filtered) ->
                exists r, In r year_filtered /\ Industry r = c)
  /\ (forall c r, In c (top_industries n year_filtered) -> In r year_filtered ->
        ~ In (Industry r) (top_industries n year_filtered) ->
        industry_total year_filtered (Industry r) <= industry_total year_filtered c).
Proof.
  split; [apply top_industries_length|]. split; [|split].
  - unfold top_industries. apply nlargest_keys_NoDup.
    rewrite groupby_sum_index. apply group_keys_NoDup.
  - intros c Hc. apply top_industries_incl, in_map_iff in Hc.
    destruct Hc as [r [E Hr]]. exists r. tauto.
  - intros c r Hc Hr Hout. unfold top_industries in Hc.
    apply in_map_iff in Hc. destruct Hc as [[c' v] [E Hc]]. simpl in E. subst c'.
    assert (Hv : v = industry_total year_filtered c).
    { apply nlargest_In, groupby_sum_In in Hc. apply Hc. }
    subst v.
    eapply (nlargest_dominates n _ c (Industry r) _ _ Hc); [|exact Hout].
    apply groupby_sum_In. split; [apply in_map, Hr | reflexivity].
Qed.

Lemma sum_year_approvals (year_filtered : list Row) :
  sum (map (year_approvals year_filtered) (pivot_years year_filtered))
  = sum (map Total_Approvals year_filtered).
Proof.
  unfold year_approvals, pivot_years. apply sum_groups.
  - apply group_keys_NoDup.
  - intros r Hr. apply group_keys_In, in_map, Hr.
Qed.

Lemma sum_rows_Forall2 (f : Z -> Z) (idx : list Z) (rows : list (list Z)) :
  Forall2 (fun y row => sum row = f y) idx rows ->
  sum (map sum rows) = sum (map f idx).
Proof.
  induction 1 as [|y row idx rows E _ IH]; simpl; [reflexivity|].
  rewrite E, IH. reflexivity.
Qed.

(** X7: all the cells of the pivot of the top industries add up to the
    approvals of the whole frame, before the columns are sorted and after:
    collecting the other industries under one column loses nothing. *)
Theorem industry_pivot_grand_total (n : nat) (year_filtered : list Row) :
  sum (map sum (values (industry_pivot n year_filtered)))
  = sum (map Total_Approvals year_filtered)
  /\ (forall t, industry_yearly n year_filtered = Ok t ->
        sum (map sum (values t)) = sum (map Total_Approvals year_filtered)).
Proof.
  split.
  - rewrite industry_pivot_tabulate.
    rewrite (sum_rows_Forall2 (year_approvals year_filtered)
               (pivot_years year_filtered)).
    + apply sum_year_approvals.
    + apply pivot_rows_sum, Permutation_refl.
  - intros t Ht. destruct (industry_yearly_inv _ _ _ Ht) as [y0 [rest [E ->]]].
    rewrite (sum_rows_Forall2 (year_approvals year_filtered) (y0 :: rest)).
    + rewrite <- E. apply sum_year_approvals.
    + apply pivot_rows_sum, sorted_columns_Permutation.
Qed.

Lemma industry_yearly_grand_total_witness :
  industry_yearly 2 sample_df
  = Ok (mkFrame [2020; 2021]
          ["Others"; "44-45 - Retail Trade"; "31-33 - Manufacturing"]
          [[7; 5; 0]; [1; 20; 10]])
  /\ sum (map sum [[7; 5; 0]; [1; 20; 10]]) = sum (map Total_Approvals sample_df).
Proof.
  assert (H : industry_yearly 2 sample_df
              = Ok (mkFrame [2020; 2021]
                      ["Others"; "44-45 - Retail Trade"; "31-33 - Manufacturing"]
                      [[7; 5; 0]; [1; 20; 10]])) by reflexivity.
  split; [exact H|].
  exact (proj2 (industry_pivot_grand_total 2 sample_df) _ H).
Defined.

(** The rows counted under a top industry that is not called "Others" are
    the rows of that industry. *)
Lemma category_eq_top (n : nat) (year_filtered : list Row) (c : string) (r : Row) :
  In c (top_industries n year_filtered) -> c <> "Others" ->
  eqb string_dec (category n year_filtered r) c = (Industry r =? c)%string.
Proof.
  intros Hc Hne. rewrite eqb_string. unfold category, Industry_Category.
  destruct (isin string_dec (Industry r) (top_industries n year_filtered)) eqn:E;
    [reflexivity|].
  apply isin_false in E.
  transitivity false.
  - apply String.eqb_neq. congruence.
  - symmetry. apply String.eqb_neq. intros E'. apply E. rewrite E'. exact Hc.
Qed.

Lemma pivot_categories_top (n : nat) (year_filtered : list Row) (c : string) :
  In c (top_industries n year_filtered) -> In c (pivot_categories n year_filtered).
Proof.
  intros Hc. pose proof Hc as Hin.
  apply top_industries_incl, in_map_iff in Hin. destruct Hin as [r [E Hr]].
  apply group_keys_In, in_map_iff. exists r. split; [|exact Hr].
  unfold category, Industry_Category. subst c.
  apply (proj2 (isin_In string_dec _ _)) in Hc. rewrite Hc. reflexivity.
Qed.

(** X8: in the pivot, the column of a top industry (one not called
    "Others") exists and holds, for every year of the frame, the approvals
    of that industry in that year. *)
Theorem industry_pivot_top_column (n : nat) (year_filtered : list Row)
    (y : Z) (c : string) :
  In c (top_industries n year_filtered) -> c <> "Others" ->
  In y (map Year year_filtered) ->
  In c (columns (industry_pivot n year_filtered))
  /\ frame_at (industry_pivot n year_filtered) y c
     = Some (year_industry_total year_filtered y c).
Proof.
  intros Hc Hne Hy. rewrite industry_pivot_tabulate. simpl.
  pose proof (pivot_categories_top n year_filtered c Hc) as Hcol.
  split; [exact Hcol|].
  rewrite frame_at_tabulate; [|apply group_keys_In, Hy | exact Hcol].
  f_equal. unfold pivot_cell, cell_rows, year_industry_total, rows_with.
  rewrite filter_filter. do 2 f_equal. apply filter_ext. intros r.
  rewrite (category_eq_top n year_filtered c r Hc Hne), eqb_Z. reflexivity.
Qed.

Lemma industry_pivot_top_column_witness :
  In "44-45 - Retail Trade" (top_industries 2 sample_df)
  /\ "44-45 - Retail Trade" <> "Others"
  /\ In 2021 (map Year sample_df)
  /\ In "44-45 - Retail Trade" (columns (industry_pivot 2 sample_df))
  /\ frame_at (industry_pivot 2 sample_df) 2021 "44-45 - Retail Trade"
     = Some (year_industry_total sample_df 2021 "44-45 - Retail Trade").
Proof.
  assert (H1 : In "44-45 - Retail Trade" (top_industries 2 sample_df))
    by (left; reflexivity).
  assert (H2 : "44-45 - Retail Trade" <> "Others") by discriminate.
  assert (H3 : In 2021 (map Year sample_df)) by (left; reflexivity).
  split; [exact H1|]. split; [exact H2|]. split; [exact H3|].
  exact (industry_pivot_top_column 2 sample_df 2021 "44-45 - Retail Trade" H1 H2 H3).
Defined.

(** X9: when no industry of the frame is called "Others", the "Others"
    cell of a year holds the approvals of that year in the industries
    outside the top [n]. *)
Theorem industry_pivot_others_column (n : nat) (year_filtered : list Row) (y : Z) :
  ~ In "Others" (map Industry year_filtered) ->
  In y (map Year year_filtered) ->
  In "Others" (columns (industry_pivot n year_filtered)) ->
  frame_at (industry_pivot n year_filtered) y "Others"
  = Some (year_rest_total (top_industries n year_filtered) year_filtered y).
Proof.
  intros Hnot Hy. rewrite industry_pivot_tabulate. simpl. intros Hcol.
  rewrite frame_at_tabulate; [|apply group_keys_In, Hy | exact Hcol].
  f_equal. unfold pivot_cell, cell_rows, year_rest_total, rows_with.
  rewrite filter_filter. do 2 f_equal. apply filter_ext_in. intros r Hr.
  rewrite eqb_Z, eqb_string. f_equal.
  unfold category, Industry_Category.
  destruct (isin string_dec (Industry r) (top_industries n year_filtered)); simpl.
  - apply String.eqb_neq. intros E. apply Hnot. rewrite <- E. apply in_map, Hr.
  - reflexivity.
Qed.

Lemma industry_pivot_others_column_witness :
  ~ In "Others" (map Industry sample_df)
  /\ In 2020 (map Year sample_df)
  /\ In "Others" (columns (industry_pivot 2 sample_df))
  /\ frame_at (industry_pivot 2 sample_df) 2020 "Others"
     = Some (year_rest_total (top_industries 2 sample_df) sample_df 2020).
Proof.
  assert (H1 : ~ In "Others" (map Industry sample_df)).
  { simpl. intuition discriminate. }
  assert (H2 : In 2020 (map Year sample_df)) by (right; left; reflexivity).
  assert (H3 : In "Others" (columns (industry_pivot 2 sample_df)))
    by (right; right; left; reflexivity).
  split; [exact H1|]. split; [exact H2|]. split; [exact H3|].
  exact (industry_pivot_others_column 2 sample_df 2020 H1 H2 H3).
Defined.

(** X10: the table of the top industries raises only on the empty frame,
    and then [IndexError]; no column label is ever missing. *)
Theorem industry_yearly_raise_iff (n : nat) (year_filtered : list Row) (e : PyError) :
  industry_yearly n year_filtered = Raise e <-> year_filtered = [] /\ e = IndexError.
Proof.
  split.
  - intros H. destruct year_filtered as [|r df].
    + rewrite industry_yearly_empty in H. inversion H. split; reflexivity.
    + destruct (industry_yearly_Ok n (r :: df)) as [y0 [rest [_ E]]]; [discriminate|].
      rewrite E in H. discriminate.
  - intros [-> ->]. apply industry_yearly_empty.
Qed.

(** ** The watch-list charts *)

Lemma supply_chain_pivot_tabulate (supply_chain : list Row) :
  industry_yearly_supply_chain supply_chain
  = tabulate (group_keys Z.eq_dec Z.leb Year supply_chain)
             (group_keys string_dec String.leb Industry supply_chain)
             (fun y c => sum (map Total_Approvals
                                  (cell_rows Year Industry y c supply_chain))).
Proof.
  apply pivot_table_fillna.
Qed.

(** X11: the watch-list pivot has at most as many columns as the watch-list
    has entries, five for the script's list, and each of its rows adds up to
    the approvals of that year's rows in watch-list industries. *)
Theorem supply_chain_pivot_shape (watchlist : list string) (year_filtered : list Row) :
  let supply_chain := supply_chain_df watchlist year_filtered in
  let t := industry_yearly_supply_chain supply_chain in
  (length (columns t) <= length watchlist)%nat
  /\ (length (columns (industry_yearly_supply_chain
                         (supply_chain_df target_industries year_filtered))) <= 5)%nat
  /\ Forall2 (fun y row => sum row = year_approvals supply_chain y)
             (index t) (values t).
Proof.
  intros supply_chain t. subst t.
  assert (Hlen : forall w,
            (length (columns (industry_yearly_supply_chain
                                (supply_chain_df w year_filtered))) <= length w)%nat).
  { intros w. rewrite supply_chain_pivot_tabulate. simpl.
    apply NoDup_incl_length; [apply group_keys_NoDup|].
    intros c Hc. apply group_keys_In, in_map_iff in Hc.
    destruct Hc as [r [<- Hr]]. apply supply_chain_df_In in Hr. apply Hr. }
  split; [apply Hlen|]. split; [apply (Hlen target_industries)|].
  rewrite supply_chain_pivot_tabulate. simpl.
  induction (group_keys Z.eq_dec Z.leb Year supply_chain) as [|y idx IH];
    simpl; constructor; [|exact IH].
  unfold year_approvals. apply pivot_row_sum.
  - apply group_keys_NoDup.
  - intros r Hr. apply group_keys_In, in_map, Hr.
Qed.

Lemma sort_values_asc_Permutation {K : Type} (s : Series K) :
  Permutation (sort_values_asc s) s.
Proof.
  apply sort_Permutation.
Qed.

Lemma sort_values_asc_sorted {K : Type} (s : Series K) :
  StronglySorted (fun a b => snd a <= snd b) (sort_values_asc s).
Proof.
  unfold sort_values_asc.
  assert (H : StronglySorted (fun a b : K * Z => (snd a <=? snd b) = true)
                (sort (fun a b : K * Z => snd a <=? snd b) s)).
  { apply sort_sorted.
    - intros x y E. apply Z.leb_le. apply Z.leb_gt in E. lia.
    - intros x y z E1 E2. apply Z.leb_le. apply Z.leb_le in E1, E2. lia. }
  induction H as [|a l Hs IH Ha]; constructor.
  - exact IH.
  - eapply Forall_impl; [|exact Ha]. intros b Hb. apply Z.leb_le, Hb.
Qed.

Lemma filter_comm {A : Type} (f g : A -> bool) (l : list A) :
  filter f (filter g l) = filter g (filter f l).
Proof.
  rewrite !filter_filter. apply filter_ext. intros x. apply andb_comm.
Qed.

(** The column of an industry in the watch-list pivot adds up to the
    approvals of that industry. *)
Lemma supply_chain_column_sum (supply_chain : list Row) (c : string) :
  sum (map (fun y => sum (map Total_Approvals
                               (cell_rows Year Industry y c supply_chain)))
           (group_keys Z.eq_dec Z.leb Year supply_chain))
  = industry_total supply_chain c.
Proof.
  unfold industry_total.
  rewrite <- (sum_groups Z.eq_dec Year Total_Approvals
                (group_keys Z.eq_dec Z.leb Year supply_chain)
                (rows_with string_dec Industry c supply_chain)).
  - f_equal. apply map_ext. intros y. unfold cell_rows, rows_with.
    rewrite filter_comm. reflexivity.
  - apply group_keys_NoDup.
  - intros r Hr. apply rows_with_In in Hr. apply group_keys_In, in_map, Hr.
Qed.

Lemma sum_cells_tabulate (idx : list Z) (cols : list string) (cell : Z -> string -> Z)
    (c : string) :
  In c cols ->
  map (fun y => cell_or_zero (tabulate idx cols cell) y c) idx
  = map (fun y => cell y c) idx.
Proof.
  intros Hc. apply map_ext_in. intros y Hy. unfold cell_or_zero.
  rewrite frame_at_tabulate by assumption. reflexivity.
Qed.

(** X12: the bars of "Total Approvals by Supply Chain Industry" stand in
    ascending order, there is one bar per industry that has a row, and the
    length of a bar is the sum of that industry's column in the watch-list
    pivot drawn below it. *)
Theorem industry_approvals_spec (supply_chain : list Row) :
  StronglySorted (fun a b => snd a <= snd b) (industry_approvals supply_chain)
  /\ NoDup (map fst (industry_approvals supply_chain))
  /\ (forall c, In c (map fst (industry_approvals supply_chain))
                <-> In c (columns (industry_yearly_supply_chain supply_chain)))
  /\ (forall c v, In (c, v) (industry_approvals supply_chain) ->
        v = industry_total supply_chain c
        /\ v = sum (map (fun y => cell_or_zero
                                    (industry_yearly_supply_chain supply_chain) y c)
                        (index (industry_yearly_supply_chain supply_chain)))).
Proof.
  assert (Hperm : Permutation (map fst (industry_approvals supply_chain))
                    (group_keys string_dec String.leb Industry supply_chain)).
  { unfold industry_approvals.
    rewrite <- (groupby_sum_index string_dec String.leb Industry Total_Approvals).
    apply Permutation_map, sort_values_asc_Permutation. }
  split; [apply sort_values_asc_sorted|]. split; [|split].
  - eapply Permutation_NoDup; [apply Permutation_sym, Hperm|].
    apply group_keys_NoDup.
  - intros c. rewrite supply_chain_pivot_tabulate. simpl. split.
    + apply Permutation_in, Hperm.
    + apply Permutation_in, Permutation_sym, Hperm.
  - intros c v Hin.
    assert (Hc : In c (group_keys string_dec String.leb Industry supply_chain)).
    { eapply Permutation_in; [exact Hperm|]. eapply In_map_fst. exact Hin. }
    unfold industry_approvals in Hin.
    eapply Permutation_in in Hin; [|apply sort_values_asc_Permutation].
    apply groupby_sum_In in Hin. destruct Hin as [_ ->].
    split; [reflexivity|].
    rewrite supply_chain_pivot_tabulate. simpl index.
    rewrite sum_cells_tabulate by exact Hc.
    symmetry. apply supply_chain_column_sum.
Qed.

(** ** The tabs of the top companies *)

Lemma rows_with_supply_chain (watchlist : list string) (year_filtered : list Row)
    (industry : string) :
  rows_with string_dec Industry industry (supply_chain_df watchlist year_filtered)
  = if isin string_dec industry watchlist
    then rows_with string_dec Industry industry year_filtered
    else [].
Proof.
  unfold rows_with, supply_chain_df. rewrite filter_filter.
  destruct (isin string_dec industry watchlist) eqn:E.
  - apply filter_ext. intros r.
    destruct (eqb string_dec (Industry r) industry) eqn:E'.
    + apply eqb_true in E'. rewrite E', E. reflexivity.
    + apply andb_false_r.
  - apply filter_none. intros r _.
    destruct (eqb string_dec (Industry r) industry) eqn:E'.
    + apply eqb_true in E'. rewrite E', E. reflexivity.
    + apply andb_false_r.
Qed.

(** X13: in a tab of the top companies the watch-list filter plays no part:
    for an industry of the watch-list the ranking is that of the
    year-filtered frame, and for any other industry it is empty. *)
Theorem top_companies_watchlist (k : nat) (watchlist : list string)
    (year_filtered : list Row) (industry : string) :
  (In industry watchlist ->
   top_companies k industry (supply_chain_df watchlist year_filtered)
   = top_companies k industry year_filtered)
  /\ (~ In industry watchlist ->
      top_companies k industry (supply_chain_df watchlist year_filtered) = []).
Proof.
  unfold top_companies. rewrite rows_with_supply_chain. split; intros H.
  - apply (proj2 (isin_In string_dec _ _)) in H. rewrite H. reflexivity.
  - apply (proj2 (isin_false string_dec _ _)) in H. rewrite H.
    destruct k; reflexivity.
Qed.

Lemma top_companies_watchlist_witness :
  In "44-45 - Retail Trade" target_industries
  /\ top_companies 30 "44-45 - Retail Trade" (supply_chain_df target_industries sample_df)
     = top_companies 30 "44-45 - Retail Trade" sample_df.
Proof.
  assert (H : In "44-45 - Retail Trade" target_industries)
    by (right; right; left; reflexivity).
  split; [exact H|].
  exact (proj1 (top_companies_watchlist 30 target_industries sample_df
                  "44-45 - Retail Trade") H).
Defined.

Lemma sum_firstn_le (n : nat) (l : list Z) :
  Forall (fun v => 0 <= v) l -> sum (firstn n l) <= sum l.
Proof.
  intros H. revert n. induction H as [|x l Hx Hl IH]; intros [|n]; simpl; try lia.
  - assert (0 <= sum l).
    { clear IH. induction Hl; simpl; lia. }
    lia.
  - specialize (IH n). lia.
Qed.

Lemma sum_nonneg (l : list Z) : Forall (fun v => 0 <= v) l -> 0 <= sum l.
Proof.
  induction 1; simpl; lia.
Qed.

(** X14: when no row has negative approvals, the bars of a tab add up to
    no more than the approvals of the whole industry. *)
Theorem top_companies_sum_le (k : nat) (industry : string) (supply_chain : list Row) :
  Forall (fun r => 0 <= Total_Approvals r) supply_chain ->
  sum (map snd (top_companies k industry supply_chain))
  <= industry_total supply_chain industry.
Proof.
  intros Hpos. unfold top_companies, industry_total.
  set (rows := rows_with string_dec Industry industry supply_chain).
  set (totals := groupby_sum string_dec String.leb Employer_Name Total_Approvals rows).
  rewrite <- (groupby_sum_total string_dec String.leb Employer_Name Total_Approvals rows).
  fold totals.
  rewrite <- (sum_Permutation _ _
                (Permutation_map snd (sort_values_desc_Permutation totals))).
  unfold nlargest. rewrite <- firstn_map. apply sum_firstn_le.
  apply Forall_forall. intros v Hv. apply in_map_iff in Hv.
  destruct Hv as [[e v'] [E Hin]]. simpl in E. subst v'.
  eapply Permutation_in in Hin; [|apply sort_values_desc_Permutation].
  apply groupby_sum_In in Hin. destruct Hin as [_ ->].
  apply sum_nonneg, Forall_forall. intros x Hx. apply in_map_iff in Hx.
  destruct Hx as [r [<- Hr]]. rewrite Forall_forall in Hpos. apply Hpos.
  apply rows_with_In in Hr. destruct Hr as [Hr _].
  apply rows_with_In in Hr. apply Hr.
Qed.

Lemma top_companies_sum_le_witness :
  Forall (fun r => 0 <= Total_Approvals r) sample_df
  /\ sum (map snd (top_companies 1 "44-45 - Retail Trade" sample_df))
     <= industry_total sample_df "44-45 - Retail Trade".
Proof.
  assert (H : Forall (fun r => 0 <= Total_Approvals r) sample_df).
  { repeat constructor; discriminate. }
  split; [exact H|].
  exact (top_companies_sum_le 1 "44-45 - Retail Trade" sample_df H).
Defined.

Lemma top_industries_spec_witness :
  In "44-45 - Retail Trade" (top_industries 2 sample_df)
  /\ In (sample_row 2020 "Acme" "52 - Finance and Insurance" 7) sample_df
  /\ ~ In "52 - Finance and Insurance" (top_industries 2 sample_df)
  /\ industry_total sample_df "52 - Finance and Insurance"
     <= industry_total sample_df "44-45 - Retail Trade".
Proof.
  assert (H1 : In "44-45 - Retail Trade" (top_industries 2 sample_df))
    by (left; reflexivity).
  assert (H2 : In (sample_row 2020 "Acme" "52 - Finance and Insurance" 7) sample_df)
    by (right; right; right; left; reflexivity).
  assert (H3 : ~ In "52 - Finance and Insurance" (top_industries 2 sample_df)).
  { simpl. intuition discriminate. }
  split; [exact H1|]. split; [exact H2|]. split; [exact H3|].
  exact (proj2 (proj2 (proj2 (top_industries_spec 2 sample_df))) _ _ H1 H2 H3).
Defined.

Lemma industry_approvals_spec_witness :
  In ("44-45 - Retail Trade", 25)
     (industry_approvals (supply_chain_df target_industries sample_df))
  /\ 25 = industry_total (supply_chain_df target_industries sample_df)
                         "44-45 - Retail Trade".
Proof.
  assert (H : In ("44-45 - Retail Trade", 25)
                 (industry_approvals (supply_chain_df target_industries sample_df)))
    by (right; left; reflexivity).
  split; [exact H|].
  exact (proj1 (proj2 (proj2 (proj2
           (industry_approvals_spec (supply_chain_df target_industries sample_df))))
           _ _ H)).
Defined.

(** ** The raw-data view *)

Lemma str_eq_true (o : option string) (s : string) : str_eq o s = true <-> o = Some s.
Proof.
  destruct o as [x|]; simpl.
  - rewrite String.eqb_eq. split; congruence.
  - split; discriminate.
Qed.

(** X15: when [filtered_df] returns, its result holds exactly the rows of
    the frame that match the selected state unless it is "All", match the
    selected city unless it is "All", have their industry in the selection
    unless the selection is empty, and are found by the search unless the
    search text is empty. *)
Theorem filtered_df_In (engine : Regex) (supply_chain : list Row)
    (selected_state selected_city : string) (selected_industry : list string)
    (search_company : string) (result : list Row) (r : Row) :
  filtered_df engine supply_chain selected_state selected_city selected_industry
              search_company = Ok result ->
  (In r result <->
   In r supply_chain
   /\ (selected_state = "All" \/ State r = Some selected_state)
   /\ (selected_city = "All" \/ City r = Some selected_city)
   /\ (selected_industry = [] \/ In (Industry r) selected_industry)
   /\ (search_company = ""
       \/ exists search, engine search_company = Some search
                         /\ search (Employer_Name r) = true)).
Proof.
  rewrite filtered_df_filter.
  assert (Hpass : forall search,
            passes selected_state selected_city selected_industry search r = true <->
            (selected_state = "All" \/ State r = Some selected_state)
            /\ (selected_city = "All" \/ City r = Some selected_city)
            /\ (selected_industry = [] \/ In (Industry r) selected_industry)
            /\ search (Employer_Name r) = true).
  { intros search. unfold passes.
    rewrite !andb_true_iff, !orb_true_iff, !String.eqb_eq, !str_eq_true.
    assert (Hind : match selected_industry with
                   | [] => true
                   | _ :: _ => isin string_dec (Industry r) selected_industry
                   end = true
                   <-> selected_industry = [] \/ In (Industry r) selected_industry).
    { destruct selected_industry as [|i inds].
      - split; [left; reflexivity | reflexivity].
      - rewrite isin_In. split; [right; assumption|].
        intros [E|H]; [discriminate | exact H]. }
    rewrite Hind. tauto. }
  destruct search_company as [|a s].
  - intros H. injection H as <-. rewrite filter_In, Hpass. split.
    + intros [G1 [G2 [G3 [G4 _]]]]. repeat split; try assumption. left. reflexivity.
    + intros [G1 [G2 [G3 [G4 _]]]]. repeat split; assumption.
  - destruct (engine (String a s)) as [search|] eqn:E; [|discriminate].
    intros H. injection H as <-. rewrite filter_In, Hpass. split.
    + intros [G1 [G2 [G3 [G4 G5]]]]. repeat split; try assumption.
      right. exists search. split; [reflexivity | exact G5].
    + intros [G1 [G2 [G3 [G4 [G5|[search' [E' G5]]]]]]]; [discriminate|].
      injection E' as <-. repeat split; assumption.
Qed.

Lemma filtered_df_In_witness :
  filtered_df literal_engine sample_df "CA" "All" ["52 - Finance and Insurance"] "aC"
  = Ok [ sample_row 2020 "Acme" "52 - Finance and Insurance" 7;
         sample_row 2021 "Acme" "52 - Finance and Insurance" 1 ]
  /\ (In (sample_row 2020 "Acme" "52 - Finance and Insurance" 7)
         [ sample_row 2020 "Acme" "52 - Finance and Insurance" 7;
           sample_row 2021 "Acme" "52 - Finance and Insurance" 1 ]
      -> In (sample_row 2020 "Acme" "52 - Finance and Insurance" 7) sample_df).
Proof.
  assert (H : filtered_df literal_engine sample_df "CA" "All"
                ["52 - Finance and Insurance"] "aC"
              = Ok [ sample_row 2020 "Acme" "52 - Finance and Insurance" 7;
                     sample_row 2021 "Acme" "52 - Finance and Insurance" 1 ])
    by reflexivity.
  split; [exact H|].
  intros Hin.
  exact (proj1 (proj1 (filtered_df_In literal_engine sample_df "CA" "All"
                         ["52 - Finance and Insurance"] "aC" _
                         (sample_row 2020 "Acme" "52 - Finance and Insurance" 7) H)
                      Hin)).
Defined.

(** X17: with the defaults of the widgets, "All" for the state and the
    city, every industry of the frame and an empty search, the raw-data view
    is the whole frame. *)
Theorem filtered_df_defaults (engine : Regex) (supply_chain : list Row) :
  filtered_df engine supply_chain "All" "All" (default_industry supply_chain) ""
  = Ok supply_chain.
Proof.
  rewrite filtered_df_filter. f_equal.
  transitivity (filter (fun _ => true) supply_chain); [|apply filter_true].
  apply filter_ext_in. intros r Hr. unfold passes. simpl.
  destruct (default_industry supply_chain) as [|i inds] eqn:E; [reflexivity|].
  rewrite <- E. rewrite andb_true_r.
  apply isin_In, unique_In, in_map, Hr.
Qed.

Lemma fill_state_city_In (supply_chain : list Row) (r : Row) :
  In r (fill_state_city supply_chain) ->
  State r = Some (cell_text (State r)) /\ City r = Some (cell_text (City r)).
Proof.
  unfold fill_state_city. intros H. apply in_map_iff in H.
  destruct H as [r0 [<- _]]. split; reflexivity.
Qed.

(** X18: on the filled frame every state offered by the select box, other
    than "All", finds a row: with the other widgets at their defaults the
    view is not empty and holds exactly the rows of that state. *)
Theorem state_option_finds_rows (engine : Regex) (supply_chain : list Row) (s : string) :
  In s (state_options (fill_state_city supply_chain)) -> s <> "All" ->
  exists result,
    filtered_df engine (fill_state_city supply_chain) s "All"
                (default_industry (fill_state_city supply_chain)) "" = Ok result
    /\ result <> []
    /\ (forall r, In r result <->
                  In r (fill_state_city supply_chain) /\ State r = Some s).
Proof.
  intros Hopt Hne.
  set (filled := fill_state_city supply_chain) in *.
  assert (Hrow : exists r, In r filled /\ State r = Some s).
  { destruct Hopt as [E|Hopt]; [congruence|].
    apply sort_In, unique_In, in_map_iff in Hopt.
    destruct Hopt as [r [E Hr]]. exists r. split; [exact Hr|].
    destruct (fill_state_city_In _ _ Hr) as [Hs _]. rewrite Hs, E. reflexivity. }
  rewrite filtered_df_filter. eexists. split; [reflexivity|].
  assert (Hin : forall r,
            In r (filter (passes s "All" (default_industry filled) (fun _ => true))
                         filled)
            <-> In r filled /\ State r = Some s).
  { intros r. rewrite filter_In. unfold passes.
    apply String.eqb_neq in Hne. rewrite Hne. simpl.
    rewrite !andb_true_r. split.
    - intros [Hr Hp]. apply andb_true_iff in Hp. destruct Hp as [Hp _].
      split; [exact Hr | apply str_eq_true, Hp].
    - intros [Hr Hs]. split; [exact Hr|].
      apply andb_true_iff. split; [apply str_eq_true, Hs|].
      destruct (default_industry filled) as [|i inds] eqn:E; [reflexivity|].
      rewrite <- E. apply isin_In, unique_In, in_map, Hr. }
  split; [|exact Hin].
  destruct Hrow as [r Hr]. apply Hin in Hr. intros E. rewrite E in Hr. contradiction.
Qed.

Lemma state_option_finds_rows_witness :
  In "CA" (state_options (fill_state_city sample_df))
  /\ "CA" <> "All"
  /\ exists result,
       filtered_df literal_engine (fill_state_city sample_df) "CA" "All"
                   (default_industry (fill_state_city sample_df)) "" = Ok result
       /\ result <> []
       /\ (forall r, In r result <->
                     In r (fill_state_city sample_df) /\ State r = Some "CA").
Proof.
  assert (H1 : In "CA" (state_options (fill_state_city sample_df)))
    by (right; left; reflexivity).
  assert (H2 : "CA" <> "All") by discriminate.
  split; [exact H1|]. split; [exact H2|].
  exact (state_option_finds_rows literal_engine sample_df "CA" H1 H2).
Defined.

(** X19: a row whose [State] is missing is not lost by lines 269-270:
    the select box then offers the state "", and selecting it shows the
    row. *)
Theorem missing_state_row (engine : Regex) (supply_chain : list Row) (r : Row) :
  In r supply_chain -> State r = None ->
  In "" (state_options (fill_state_city supply_chain))
  /\ exists result,
       filtered_df engine (fill_state_city supply_chain) "" "All"
                   (default_industry (fill_state_city supply_chain)) "" = Ok result
       /\ In (fillna_state_city r) result.
Proof.
  intros Hr Hmissing.
  assert (Hin : In (fillna_state_city r) (fill_state_city supply_chain))
    by (apply in_map, Hr).
  split.
  - right. apply sort_In, unique_In, in_map_iff.
    exists (fillna_state_city r). split; [|exact Hin].
    simpl. rewrite Hmissing. reflexivity.
  - rewrite filtered_df_filter. eexists. split; [reflexivity|].
    apply filter_In. split; [exact Hin|].
    unfold passes. simpl State. rewrite Hmissing. simpl.
    rewrite andb_true_r.
    destruct (default_industry (fill_state_city supply_chain)) as [|i inds] eqn:E;
      [reflexivity|].
    rewrite <- E. apply isin_In, unique_In.
    apply (in_map Industry _ _ Hin).
Qed.

Lemma missing_state_row_witness :
  In (mkRow 2021 "Acme" None None "31-33 - Manufacturing" 1 0 0 0)
     [mkRow 2021 "Acme" None None "31-33 - Manufacturing" 1 0 0 0]
  /\ In "" (state_options
              (fill_state_city
                 [mkRow 2021 "Acme" None None "31-33 - Manufacturing" 1 0 0 0])).
Proof.
  assert (H : In (mkRow 2021 "Acme" None None "31-33 - Manufacturing" 1 0 0 0)
                 [mkRow 2021 "Acme" None None "31-33 - Manufacturing" 1 0 0 0])
    by (left; reflexivity).
  split; [exact H|].
  exact (proj1 (missing_state_row literal_engine _ _ H eq_refl)).
Defined.

(** ** Loading *)

Ltac raw_label E :=
  apply String.eqb_eq in E; subst;
  split; [unfold rename_column, column_renames; simpl; intuition discriminate
         | split; [reflexivity | intros H; exfalso; apply H; simpl; tauto]].

(** X20: after the renaming of [load_data] no column carries one of the
    nine raw labels, renaming again changes nothing, and a label that is
    not one of the nine is kept as it is. *)
Theorem rename_column_spec (c : string) :
  ~ In (rename_column c) (map fst column_renames)
  /\ rename_column (rename_column c) = rename_column c
  /\ (~ In c (map fst column_renames) -> rename_column c = c).
Proof.
  destruct (c =? "Fiscal Year")%string eqn:E1; [raw_label E1|].
  destruct (c =? "Employer (Petitioner) Name")%string eqn:E2; [raw_label E2|].
  destruct (c =? "Petitioner City")%string eqn:E3; [raw_label E3|].
  destruct (c =? "Petitioner State")%string eqn:E4; [raw_label E4|].
  destruct (c =? "Industry (NAICS) Code")%string eqn:E5; [raw_label E5|].
  destruct (c =? "Initial Approval")%string eqn:E6; [raw_label E6|].
  destruct (c =? "Initial Denial")%string eqn:E7; [raw_label E7|].
  destruct (c =? "Continuing Approval")%string eqn:E8; [raw_label E8|].
  destruct (c =? "Continuing Denial")%string eqn:E9; [raw_label E9|].
  assert (Hnot : ~ In c (map fst column_renames)).
  { simpl. intros H.
    repeat (destruct H as [H|H];
            [subst c; rewrite String.eqb_refl in *; discriminate|]).
    exact H. }
  assert (Hid : rename_column c = c).
  { unfold rename_column, column_renames. simpl.
    rewrite E1, E2, E3, E4, E5, E6, E7, E8, E9. reflexivity. }
  split; [rewrite Hid; exact Hnot|]. split; [rewrite !Hid; reflexivity | intros _; exact Hid].
Qed.

Lemma rename_column_spec_witness :
  ~ In "Region" (map fst column_renames) /\ rename_column "Region" = "Region".
Proof.
  assert (H : ~ In "Region" (map fst column_renames)).
  { simpl. intuition discriminate. }
  split; [exact H|].
  exact (proj2 (proj2 (rename_column_spec "Region")) H).
Defined.
